(** * tubular: deployment scripts

    A shallow embedding of the two command-line scripts

      - [tubular/scripts/frontend_deploy.py]       (the frontend publisher)
      - [tubular/scripts/jenkins_trigger_build.py] (the CI job trigger)

    Both scripts are straight-line Python that talks to the outside
    world (a config file, a subprocess, the CloudFlare client, the
    Jenkins helper).  The embedding keeps the control flow of the
    scripts and records every externally visible action in a trace, so
    that statements such as "exits with code 1 before the sync command
    is invoked" become statements about the pair (trace, result). *)

From Stdlib Require Import String Ascii List ZArith QArith Bool Lia.
Import ListNotations.

Set Warnings "-register-all".

Local Open Scope list_scope.
Local Open Scope string_scope.

(* ================================================================== *)
(** * Python values and the operations the scripts apply to them      *)
(* ================================================================== *)

Module Py.

(** The values [yaml.safe_load] and the CloudFlare client hand to the
    script.  Mappings are keyed by strings: the scripts only ever look
    up the string keys ['S3_BUCKET_NAME'] and ['id'], which no
    non-string key can match.  Floats and dates are not represented. *)
Inductive PyVal : Type :=
| PyNone
| PyBool (b : bool)
| PyInt (n : Z)
| PyStr (s : string)
| PyList (l : list PyVal)
| PyDict (d : list (string * PyVal)).

(** The exception classes that occur in the scripts, in their [except]
    clauses or as the errors of the operations they apply. *)
Inductive Exn : Type :=
| IOError
| YAMLError
| AttributeError
| TypeError
| IndexError
| KeyError
| UnboundLocalError
| CloudFlareAPIError
| OtherError (name : string).
(* Each class stands for itself and its subclasses ([IOError] for every
   [OSError]); [OtherError] stands for the classes outside of them. *)

Definition exn_eqb (a b : Exn) : bool :=
  match a, b with
  | IOError, IOError => true
  | YAMLError, YAMLError => true
  | AttributeError, AttributeError => true
  | TypeError, TypeError => true
  | IndexError, IndexError => true
  | KeyError, KeyError => true
  | UnboundLocalError, UnboundLocalError => true
  | CloudFlareAPIError, CloudFlareAPIError => true
  | OtherError n, OtherError m => n =? m
  | _, _ => false
  end.

(** [e] is an instance of one of [classes], as an [except] clause
    tests it. *)
Definition one_of (classes : list Exn) (e : Exn) : bool :=
  existsb (exn_eqb e) classes.

(** What a call into a library or into the operating system gives
    back: a value, or a raised exception. *)
Inductive Reply (A : Type) : Type :=
| Returns (a : A)
| Throws (e : Exn).
Arguments Returns {A} a.
Arguments Throws {A} e.

(** Truth value of [v], as tested by [if not v]. *)
Definition truthy (v : PyVal) : bool :=
  match v with
  | PyNone => false
  | PyBool b => b
  | PyInt n => negb (n =? 0)%Z
  | PyStr s => negb (s =? EmptyString)
  | PyList l => match l with [] => false | _ :: _ => true end
  | PyDict d => match d with [] => false | _ :: _ => true end
  end.

(** A command-line option as click passes it to the command: [None]
    when the option was not given, the string otherwise. *)
Definition of_option (a : option string) : PyVal :=
  match a with
  | Some s => PyStr s
  | None => PyNone
  end.

Fixpoint assoc (k : string) (d : list (string * PyVal)) : option PyVal :=
  match d with
  | [] => None
  | (k', v) :: rest => if k' =? k then Some v else assoc k rest
  end.

(** [v.get(key)]: only mappings have the method. *)
Definition get (v : PyVal) (key : string) : Reply PyVal :=
  match v with
  | PyDict d => match assoc key d with
                | Some x => Returns x
                | None => Returns PyNone
                end
  | _ => Throws AttributeError
  end.

(** [v[0]]. *)
Definition item0 (v : PyVal) : Reply PyVal :=
  match v with
  | PyList l => match l with
                | x :: _ => Returns x
                | [] => Throws IndexError
                end
  | PyStr s => match s with
               | String c _ => Returns (PyStr (String c EmptyString))
               | EmptyString => Throws IndexError
               end
  | PyDict _ => Throws KeyError
  | PyNone | PyBool _ | PyInt _ => Throws TypeError
  end.

(** [v[key]] for a string [key]. *)
Definition item (v : PyVal) (key : string) : Reply PyVal :=
  match v with
  | PyDict d => match assoc key d with
                | Some x => Returns x
                | None => Throws KeyError
                end
  | _ => Throws TypeError
  end.

(** [s.split(sep)] for a one-character separator. *)
Fixpoint split (sep : ascii) (s : string) : list string :=
  match s with
  | EmptyString => [EmptyString]
  | String c rest =>
      if Ascii.eqb c sep then EmptyString :: split sep rest
      else match split sep rest with
           | w :: ws => String c w :: ws
           | [] => [String c EmptyString]
           end
  end.

(** [v.split('.')]: only strings have the method. *)
Definition split_dot (v : PyVal) : Reply (list string) :=
  match v with
  | PyStr s => Returns (split "." s)
  | _ => Throws AttributeError
  end.

(** [l[-n:]]: the last [n] elements, all of [l] when it is shorter. *)
Definition last_n {A : Type} (n : nat) (l : list A) : list A :=
  skipn (length l - n) l.

(** [sep.join(l)]. *)
Definition join (sep : string) (l : list string) : string :=
  String.concat sep l.

End Py.
Export Py.

(* ================================================================== *)
(** * Script runs: traces, results and the process exit status        *)
(* ================================================================== *)

Module Run.

(** What [jenkins.trigger_build] is called with.  The timeout is a
    number of seconds, a float in the script: kept as a rational. *)
Record BuildRequest : Type := {
  req_url : string;
  req_user_name : string;
  req_user_token : string;
  req_job : string;
  req_token : string;
  req_cause : option string;
  req_param : list (string * string);
  req_timeout : Q
}.

(** The externally visible actions of the two scripts. *)
Inductive Event : Type :=
| EvLog (kind message : string)
| EvOpen (path : string)
| EvSubprocess (cmd : string)
| EvCloudFlare
| EvZonesGet (name : string)
| EvPurgeCache (zone_id data : PyVal)
| EvTriggerBuild (req : BuildRequest).

(** How a piece of script code ends: it falls through with a value,
    it calls [sys.exit], or it raises. *)
Inductive Res (A : Type) : Type :=
| Ok (a : A)
| Exit (code : Z)
| Raise (e : Exn).
Arguments Ok {A} a.
Arguments Exit {A} code.
Arguments Raise {A} e.

(** A computation: the events it emitted, oldest first, and how it
    ended. *)
Definition M (A : Type) : Type := (list Event * Res A)%type.

Definition ret {A : Type} (a : A) : M A := ([], Ok a).

Definition trace {A : Type} (m : M A) : list Event := fst m.
Definition result {A : Type} (m : M A) : Res A := snd m.

(** [m] and then [f]: the events of [f] follow those of [m]; an exit
    or an exception in [m] ends the whole. *)
Definition bind {A B : Type} (m : M A) (f : A -> M B) : M B :=
  match m with
  | (t, Ok a) => let (t', r) := f a in ((t ++ t')%list, r)
  | (t, Exit c) => (t, Exit c)
  | (t, Raise e) => (t, Raise e)
  end.

Definition emit (ev : Event) : M unit := ([ev], Ok tt).

(** The events [t], and then [m]. *)
Definition after {A : Type} (t : list Event) (m : M A) : M A :=
  ((t ++ trace m)%list, result m).

Definition exit {A : Type} (code : Z) : M A := ([], Exit code).

Definition raise {A : Type} (e : Exn) : M A := ([], Raise e).

Definition call {A : Type} (r : Reply A) : M A :=
  match r with
  | Returns a => ret a
  | Throws e => raise e
  end.

(** [try: body except classes: handler]. *)
Definition try_except {A : Type} (body : M A) (classes : list Exn)
    (handler : M A) : M A :=
  match body with
  | (t, Raise e) =>
      if one_of classes e
      then let (t', r) := handler in ((t ++ t')%list, r)
      else body
  | _ => body
  end.

(** [if c: body]. *)
Definition when (c : bool) (body : M unit) : M unit :=
  if c then body else ret tt.

Declare Scope script_scope.
Delimit Scope script_scope with script.
Notation "x <- m ;; k" := (bind m (fun x => k))
  (at level 61, m at next level, right associativity) : script_scope.
Notation "m ;; k" := (bind m (fun _ => k))
  (at level 61, right associativity) : script_scope.

(** How a run of a script ends, seen from the shell. *)
Inductive Outcome : Type :=
| Finished (value : PyVal)
| Exited (code : Z)
| Uncaught (e : Exn)
| UsageError (param : string).

Definition outcome (r : Res PyVal) : Outcome :=
  match r with
  | Ok v => Finished v
  | Exit c => Exited c
  | Raise e => Uncaught e
  end.

(** The exit status of the process: 0 when the command function
    returns, the argument of [sys.exit], 1 for a traceback, 2 when
    click rejects the command line. *)
Definition exit_status (o : Outcome) : Z :=
  match o with
  | Finished _ => 0
  | Exited c => c
  | Uncaught _ => 1
  | UsageError _ => 2
  end.

End Run.
Export Run.

(* ================================================================== *)
(** * tubular/scripts/helpers.py                                      *)
(* ================================================================== *)

Module Helpers.
Local Open Scope script_scope.

(** Modelled from the spec: [tubular/scripts/helpers.py], from which
    both [_log] and [_fail] are imported, is not among the sources.
    The spec has every fatal condition "produce a single
    human-readable log line naming the short label of the originating
    script and the offending value, followed by process termination
    with exit code 1".  So [_log kind message] writes one log line
    that carries the label [kind] and the text [message]. *)
Definition _log (kind message : string) : M unit :=
  emit (EvLog kind message).

(** Modelled from the spec: [_fail] of the missing
    [tubular/scripts/helpers.py] writes that one log line and then
    terminates the process with the exit code it was given. *)
Definition _fail (kind : string) (code : Z) (message : string) : M unit :=
  _log kind message ;; exit code.

End Helpers.
Export Helpers.

(* ================================================================== *)
(** * tubular/scripts/frontend_deploy.py                              *)
(* ================================================================== *)

Module FrontendDeploy.
Local Open Scope script_scope.

(** Everything outside the script that it consults. *)
Record World : Type := {
  (** [io.open(path, 'r')] followed by [yaml.safe_load]: the parsed
      document, [IOError] when the file cannot be opened, [YAMLError]
      when its text is not YAML. *)
  load_config : string -> Reply PyVal;
  (** [subprocess.Popen(cmd, shell=True).wait()]: the return code. *)
  sync : string -> Z;
  (** [cloudflare_client.zones.get(params={'name': name})]. *)
  zones_get : string -> Reply PyVal;
  (** [cloudflare_client.zones.purge_cache.post(zone_id, data=data)]. *)
  purge_cache_post : PyVal -> PyVal -> Reply PyVal;
  (** The text [str.format] produces for a value that is not a
      string. *)
  repr : PyVal -> string
}.

(** ['{}'.format(v)]. *)
Definition format (w : World) (v : PyVal) : string :=
  match v with
  | PyStr s => s
  | _ => repr w v
  end.

(** ['{}'.format(a)] for a command-line option. *)
Definition str (a : option string) : string :=
  match a with
  | Some s => s
  | None => "None"
  end.

Definition SCRIPT_SHORTNAME : string := "Deploy frontend".
Definition LOG : string -> M unit := _log SCRIPT_SHORTNAME.
Definition FAIL : Z -> string -> M unit := _fail SCRIPT_SHORTNAME.

(** The body of the [try] around the CloudFlare calls. *)
Definition purge (w : World) (zone_name : string) (data bucket_name : PyVal)
  : M unit :=
  emit (EvZonesGet zone_name) ;;
  zones <- call (zones_get w zone_name) ;;
  zone <- call (item0 zones) ;;
  zone_id <- call (item zone "id") ;;
  emit (EvPurgeCache zone_id data) ;;
  call (purge_cache_post w zone_id data) ;;
  LOG ("Successfully purged Cloudflare cache for hostname "
       ++ format w bucket_name ++ ".").

Definition frontend_deploy (w : World)
    (env_config_file app_name app_dist : option string)
    (purge_cache : bool) : M PyVal :=
  when (negb (truthy (of_option env_config_file)))
    (FAIL 1 "Environment config file was not specified.") ;;
  when (negb (truthy (of_option app_name)))
    (FAIL 1 "Frontend application name was not specified.") ;;
  when (negb (truthy (of_option app_dist)))
    (FAIL 1 "Frontend application dist path was not specified.") ;;
  env_vars <-
    try_except
      (emit (EvOpen (str env_config_file)) ;;
       call (load_config w (str env_config_file)))
      [IOError]
      (FAIL 1 ("Environment config file " ++ str env_config_file
               ++ " could not be opened.") ;;
       raise UnboundLocalError) ;;
  bucket_name <- call (get env_vars "S3_BUCKET_NAME") ;;
  when (negb (truthy bucket_name))
    (FAIL 1 ("No S3 bucket name configured for " ++ str app_name ++ ".")) ;;
  let bucket_uri := "s3://" ++ format w bucket_name in
  let cmd := join " " ["aws s3 sync"; str app_dist; bucket_uri; "--delete"] in
  emit (EvSubprocess cmd) ;;
  let return_code := sync w cmd in
  when (negb (return_code =? 0)%Z)
    (FAIL 1 ("Could not sync app " ++ str app_name ++ " with S3 bucket "
             ++ bucket_uri ++ ".")) ;;
  when purge_cache
    (labels <- call (split_dot bucket_name) ;;
     let zone_name := join "." (last_n 2 labels) in
     let data := PyDict [("hosts", PyList [bucket_name])] in
     emit EvCloudFlare ;;
     try_except
       (purge w zone_name data bucket_name)
       [CloudFlareAPIError; IndexError; KeyError]
       (FAIL 1 ("Failed to purge the Cloudflare cache for hostname "
                ++ format w bucket_name ++ "."))) ;;
  LOG ("Frontend application " ++ str app_name
       ++ " successfully deployed to " ++ format w bucket_name ++ ".") ;;
  ret PyNone.

(** The command line of the publisher. *)
Record CommandLine : Type := {
  env_config_file : option string;
  app_name : option string;
  app_dist : option string;
  purge_cache : bool
}.

(** [frontend_deploy()] under [if __name__ == "__main__"], for a
    command line made of the four declared options, each with its
    argument: none of them is declared required, so click enters the
    command.  A command line that click refuses (an option it does
    not know, an option without its argument: exit status 2) or
    answers itself ([--help]: exit status 0) does not reach
    [frontend_deploy] and is not a run of [main]. *)
Definition main (w : World) (c : CommandLine) : list Event * Outcome :=
  let m := frontend_deploy w (env_config_file c) (app_name c) (app_dist c)
             (purge_cache c) in
  (trace m, outcome (result m)).

End FrontendDeploy.

(* ================================================================== *)
(** * tubular/jenkins.py                                              *)
(* ================================================================== *)

Module Jenkins.

(** The status strings of [jenkinsapi.constants], the library the
    script imports them from.  The properties below use them by name
    only; none depends on their text. *)
Definition STATUS_FAIL : string := "FAIL".
Definition STATUS_ERROR : string := "ERROR".
Definition STATUS_ABORTED : string := "ABORTED".
Definition STATUS_REGRESSION : string := "REGRESSION".
Definition STATUS_SUCCESS : string := "SUCCESS".

(** Modelled from the spec: [tubular/jenkins.py], whose
    [trigger_build] the script calls, is not among the sources.  The
    spec has it return "the observed terminal status", or signal "a
    timeout condition distinctly from a terminal-status result", as "a
    distinguished timeout result rather than raising". *)
Inductive BuildResult : Type :=
| Status (status : string)
| Timeout.

(** [status == expected_status], where [expected_status] is a
    string. *)
Definition eq_status (r : BuildResult) (expected_status : string) : bool :=
  match r with
  | Status s => s =? expected_status
  | Timeout => false
  end.

(** Modelled from the spec: the "fixed set of terminal statuses
    (success, failure, error, aborted, regression)" at which the
    polling of the missing [tubular/jenkins.py] stops. *)
Definition terminal_statuses : list string :=
  [STATUS_SUCCESS; STATUS_FAIL; STATUS_ERROR; STATUS_ABORTED;
   STATUS_REGRESSION].

Definition is_terminal (s : string) : bool :=
  existsb (String.eqb s) terminal_statuses.

(** A build on the CI server: the instance, the job it belongs to and
    its status, if it has one yet. *)
Record Build : Type := {
  build_id : nat;
  build_job : string;
  build_status : option string
}.

(** The CI server as one invocation sees it: the answer to the
    trigger call (the build instance it created), and at the [k]-th
    poll the builds the server knows and the seconds elapsed since the
    trigger call. *)
Record Server : Type := {
  invoke : BuildRequest -> Reply nat;
  builds : nat -> list Build;
  clock : nat -> Q
}.

(** Modelled from the spec: the poller of the missing
    [tubular/jenkins.py] tracks "the specific build instance returned
    from the trigger call": the status of the instance [id] among
    [bs]. *)
Definition status_of (id : nat) (bs : list Build) : option string :=
  match find (fun b => build_id b =? id)%nat bs with
  | Some b => build_status b
  | None => None
  end.

(** Modelled from the spec: the polling of the missing
    [tubular/jenkins.py].  "Poll the CI server until the triggered
    build reaches one of a fixed set of terminal statuses [...] or
    until an elapsed-time budget [...] is exceeded", "tracking the
    specific build instance returned from the trigger call"; the
    timeout "is wall-clock, measured from the trigger call".  A poll
    that finds the budget used up ends the loop with the timeout
    result; otherwise a terminal status of the build ends it.  [fuel]
    bounds the number of polls; [None] means the polls ran out before
    the build or the clock ended the loop. *)
Fixpoint poll (srv : Server) (id : nat) (timeout : Q) (fuel k : nat)
  : option BuildResult :=
  match fuel with
  | O => None
  | S fuel' =>
      if negb (Qle_bool (clock srv k) timeout) then Some Timeout
      else match status_of id (builds srv k) with
           | Some s =>
               if is_terminal s then Some (Status s)
               else poll srv id timeout fuel' (S k)
           | None => poll srv id timeout fuel' (S k)
           end
  end.

(** Modelled from the spec: [trigger_build] of the missing
    [tubular/jenkins.py]: "submit a job-trigger request", then poll
    the build that the trigger call returned. *)
Definition trigger_build (srv : Server) (fuel : nat) (req : BuildRequest)
  : option (Reply BuildResult) :=
  match invoke srv req with
  | Throws e => Some (Throws e)
  | Returns id =>
      match poll srv id (req_timeout req) fuel 0 with
      | Some r => Some (Returns r)
      | None => None
      end
  end.

End Jenkins.
Export Jenkins.

(* ================================================================== *)
(** * tubular/scripts/jenkins_trigger_build.py                        *)
(* ================================================================== *)

Module JenkinsTriggerBuild.
Local Open Scope script_scope.

(** An implementation of [jenkins.trigger_build]; [None] when the call
    does not come back. *)
Definition TriggerBuild : Type := BuildRequest -> option (Reply BuildResult).

Definition trigger (trigger_build : TriggerBuild)
    (url user_name user_token job token : string) (cause : option string)
    (param : list (string * string)) (timeout : Q) (expected_status : string)
  : option (M PyVal) :=
  let req := {| req_url := url; req_user_name := user_name;
                req_user_token := user_token; req_job := job;
                req_token := token; req_cause := cause;
                req_param := param; req_timeout := timeout |} in
  match trigger_build req with
  | None => None
  | Some reply =>
      Some (status <- (emit (EvTriggerBuild req) ;; call reply) ;;
            ret (PyBool (eq_status status expected_status)))
  end.

(** The command line of the trigger: each option as given (or not),
    and the environment. *)
Record CommandLine : Type := {
  url : option string;
  user_name : option string;
  user_token : option string;
  job : option string;
  token : option string;
  cause : option string;
  param : list (string * string);
  timeout : option Q;
  expected_status : option string;
  environ : string -> option string
}.

(** The value click takes from the environment variable [name]: none
    when the variable is unset, and none when it is set to the empty
    text. *)
Definition from_environ (environ : string -> option string) (name : string)
  : option string :=
  match environ name with
  | Some v => if v =? EmptyString then None else Some v
  | None => None
  end.

(** The value click gives an option: the one on the command line,
    else the one of its [envvar], else its [default]. *)
Definition value {A : Type} (given from_env default : option A) : option A :=
  match given with
  | Some v => Some v
  | None => match from_env with
            | Some v => Some v
            | None => default
            end
  end.

(** [required=True]: without a value the command line is rejected. *)
Definition required {A : Type} (name : string) (v : option A) : string + A :=
  match v with
  | Some x => inr x
  | None => inl name
  end.

(** An option that is not required and has a [default]. *)
Definition defaulted {A : Type} (given : option A) (default : A) : A :=
  match given with
  | Some v => v
  | None => default
  end.

(** [type=click.Choice(choices)]. *)
Definition choice (name : string) (choices : list string) (v : string)
  : string + string :=
  if existsb (String.eqb v) choices then inr v else inl name.

Definition default_url : string := "https://test-jenkins.testeng.edx.org".
Definition default_timeout : Q := inject_Z (30 * 60).
Definition default_expected_status : string := STATUS_SUCCESS.
Definition expected_status_choices : list string :=
  [STATUS_FAIL; STATUS_ERROR; STATUS_ABORTED; STATUS_REGRESSION;
   STATUS_SUCCESS].

Definition and_then {A B : Type} (r : string + A) (k : A -> string + B)
  : string + B :=
  match r with
  | inl name => inl name
  | inr a => k a
  end.

(** The arguments click calls [trigger] with. *)
Record TriggerArgs : Type := {
  arg_url : string;
  arg_user_name : string;
  arg_user_token : string;
  arg_job : string;
  arg_token : string;
  arg_cause : option string;
  arg_param : list (string * string);
  arg_timeout : Q;
  arg_expected_status : string
}.

(** The options of the decorators, in the order they are declared.
    [--url] is declared required and has a default; [--user_token] and
    [--token] fall back on an environment variable; [--cause],
    [--param], [--timeout] and [--expected-status] are optional.
    The name reported is that of the first option, in this order,
    that has no value; when several options fail click may name
    another of them. *)
Definition options (c : CommandLine) : string + TriggerArgs :=
  and_then (required "url" (value (url c) None (Some default_url)))
    (fun a_url =>
  and_then (required "user_name" (value (user_name c) None None))
    (fun a_user_name =>
  and_then (required "user_token"
              (value (user_token c)
                 (from_environ (environ c) "JENKINS_USER_TOKEN") None))
    (fun a_user_token =>
  and_then (required "job" (value (job c) None None))
    (fun a_job =>
  and_then (required "token"
              (value (token c)
                 (from_environ (environ c) "JENKINS_JOB_TOKEN") None))
    (fun a_token =>
  and_then (choice "expected_status" expected_status_choices
              (defaulted (expected_status c) default_expected_status))
    (fun a_expected_status =>
  inr {| arg_url := a_url; arg_user_name := a_user_name;
         arg_user_token := a_user_token; arg_job := a_job;
         arg_token := a_token; arg_cause := cause c;
         arg_param := param c;
         arg_timeout := defaulted (timeout c) default_timeout;
         arg_expected_status := a_expected_status |})))))).

(** [trigger()] under [if __name__ == "__main__"], for a command
    line made of the declared options, each with its argument.  A
    command line that click refuses for another reason (an option it
    does not know, an option without its argument) or answers itself
    ([--help]) does not reach this point and is not a run of [main]. *)
Definition main (trigger_build : TriggerBuild) (c : CommandLine)
  : option (list Event * Outcome) :=
  match options c with
  | inl name => Some ([], UsageError name)
  | inr a =>
      match trigger trigger_build (arg_url a) (arg_user_name a)
              (arg_user_token a) (arg_job a) (arg_token a) (arg_cause a)
              (arg_param a) (arg_timeout a) (arg_expected_status a) with
      | Some m => Some (trace m, outcome (result m))
      | None => None
      end
  end.

End JenkinsTriggerBuild.

(* ================================================================== *)
(** * Vocabulary of the properties                                    *)
(* ================================================================== *)

Module Props.

(** The option was given on the command line, and not as the empty
    string. *)
Definition given (a : option string) : bool := truthy (of_option a).

(** The document is a mapping that has the key. *)
Definition has_key (doc : PyVal) (key : string) : bool :=
  match doc with
  | PyDict d => match assoc key d with
                | Some _ => true
                | None => false
                end
  | _ => false
  end.

Definition is_log (e : Event) : bool :=
  match e with
  | EvLog _ _ => true
  | _ => false
  end.

(** The sync command. *)
Definition is_sync (e : Event) : bool :=
  match e with
  | EvSubprocess _ => true
  | _ => false
  end.

(** The CloudFlare client: its construction and its calls. *)
Definition is_cdn (e : Event) : bool :=
  match e with
  | EvCloudFlare | EvZonesGet _ | EvPurgeCache _ _ => true
  | _ => false
  end.

(** The calls that leave the machine: the sync subprocess, the CDN
    calls, the CI trigger call. *)
Definition is_remote (e : Event) : bool :=
  match e with
  | EvSubprocess _ | EvZonesGet _ | EvPurgeCache _ _ | EvTriggerBuild _ => true
  | _ => false
  end.

Definition is_zone_lookup (e : Event) : bool :=
  match e with
  | EvZonesGet _ => true
  | _ => false
  end.

Definition none_of (p : Event -> bool) (t : list Event) : Prop :=
  filter p t = [].

(** [msg] contains the text [value]. *)
Definition mentions (msg value : string) : Prop :=
  exists before after, msg = before ++ value ++ after.

(** The character [c] occurs in [s]. *)
Fixpoint occurs (c : ascii) (s : string) : bool :=
  match s with
  | EmptyString => false
  | String c' rest => Ascii.eqb c' c || occurs c rest
  end.

(** A label of a host name: a string without a dot. *)
Definition label (s : string) : Prop := occurs "." s = false.

(** The three options of the publisher are given. *)
Definition options_given (c : FrontendDeploy.CommandLine) : Prop :=
  given (FrontendDeploy.env_config_file c) = true /\
  given (FrontendDeploy.app_name c) = true /\
  given (FrontendDeploy.app_dist c) = true.

(** One of the three options of the publisher is missing. *)
Definition option_missing (c : FrontendDeploy.CommandLine) : Prop :=
  given (FrontendDeploy.env_config_file c) = false \/
  given (FrontendDeploy.app_name c) = false \/
  given (FrontendDeploy.app_dist c) = false.

(** The command the publisher hands to the shell. *)
Definition sync_command (app_dist bucket : string) : string :=
  "aws s3 sync " ++ app_dist ++ " s3://" ++ bucket ++ " --delete".

(** The zone of a host name: its last two labels. *)
Definition zone_of (bucket : string) : string :=
  join "." (last_n 2 (split "." bucket)).

Definition hosts (bucket : string) : PyVal :=
  PyDict [("hosts", PyList [PyStr bucket])].


(** The same world with another answer for the config file. *)
Definition with_config (w : FrontendDeploy.World) (r : Reply PyVal)
  : FrontendDeploy.World := {|
  FrontendDeploy.load_config := fun _ => r;
  FrontendDeploy.sync := FrontendDeploy.sync w;
  FrontendDeploy.zones_get := FrontendDeploy.zones_get w;
  FrontendDeploy.purge_cache_post := FrontendDeploy.purge_cache_post w;
  FrontendDeploy.repr := FrontendDeploy.repr w
|}.

(** The same world with another answer for the zone lookup. *)
Definition with_zones (w : FrontendDeploy.World) (r : Reply PyVal)
  : FrontendDeploy.World := {|
  FrontendDeploy.load_config := FrontendDeploy.load_config w;
  FrontendDeploy.sync := FrontendDeploy.sync w;
  FrontendDeploy.zones_get := fun _ => r;
  FrontendDeploy.purge_cache_post := FrontendDeploy.purge_cache_post w;
  FrontendDeploy.repr := FrontendDeploy.repr w
|}.

(** The [try] statement around the CloudFlare calls, for a bucket
    name that is a string. *)
Definition cdn_step (w : FrontendDeploy.World) (bucket : string) : M unit :=
  try_except
    (FrontendDeploy.purge w (zone_of bucket) (hosts bucket) (PyStr bucket))
    [CloudFlareAPIError; IndexError; KeyError]
    (FrontendDeploy.FAIL 1
       ("Failed to purge the Cloudflare cache for hostname " ++ bucket ++ ".")).

(** The run ends with exit status 1 after exactly one log line, which
    carries the short label of the script and names [value], and
    without a remote call. *)
Definition fails_with_log_line_naming (value : string)
    (run : list Event * Outcome) : Prop :=
  exit_status (snd run) = 1%Z /\
  none_of is_remote (fst run) /\
  exists msg,
    filter is_log (fst run) = [EvLog FrontendDeploy.SCRIPT_SHORTNAME msg] /\
    mentions msg value.

(** The config file cannot be opened. *)
Definition unreadable (w : FrontendDeploy.World)
    (c : FrontendDeploy.CommandLine) : Prop :=
  FrontendDeploy.load_config w
    (FrontendDeploy.str (FrontendDeploy.env_config_file c)) = Throws IOError.

(** The text of the config file is not YAML. *)
Definition malformed (w : FrontendDeploy.World)
    (c : FrontendDeploy.CommandLine) : Prop :=
  FrontendDeploy.load_config w
    (FrontendDeploy.str (FrontendDeploy.env_config_file c)) = Throws YAMLError.


(** The request [trigger] hands to [jenkins.trigger_build]. *)
Definition request_of (a : JenkinsTriggerBuild.TriggerArgs) : BuildRequest := {|
  req_url := JenkinsTriggerBuild.arg_url a;
  req_user_name := JenkinsTriggerBuild.arg_user_name a;
  req_user_token := JenkinsTriggerBuild.arg_user_token a;
  req_job := JenkinsTriggerBuild.arg_job a;
  req_token := JenkinsTriggerBuild.arg_token a;
  req_cause := JenkinsTriggerBuild.arg_cause a;
  req_param := JenkinsTriggerBuild.arg_param a;
  req_timeout := JenkinsTriggerBuild.arg_timeout a
|}.

(** At the [k]-th poll the budget is not used up and the build [id]
    has no terminal status. *)
Definition still_running (srv : Server) (id : nat) (timeout : Q) (k : nat)
  : Prop :=
  Qle (clock srv k) timeout /\
  forall s, status_of id (builds srv k) = Some s -> is_terminal s = false.


End Props.
Export Props.

(* ================================================================== *)
(** * Concrete runs                                                   *)
(* ================================================================== *)

Module Examples.
Import FrontendDeploy.

(** A deployment of [www.example.com]: the config names the bucket,
    the sync succeeds, CloudFlare knows the zone [example.com]. *)
Definition example_config : PyVal :=
  PyDict [("S3_BUCKET_NAME", PyStr "www.example.com")].

Definition example_world : World := {|
  load_config := fun _ => Returns example_config;
  sync := fun _ => 0%Z;
  zones_get := fun name =>
    if name =? "example.com"
    then Returns (PyList [PyDict [("id", PyStr "023e105f4ecef8ad")]])
    else Returns (PyList []);
  purge_cache_post := fun _ _ => Returns PyNone;
  repr := fun _ => "?"
|}.

Definition example_command (purge : bool) : CommandLine := {|
  env_config_file := Some "env.yml";
  app_name := Some "shop";
  app_dist := Some "dist";
  purge_cache := purge
|}.

(** A Jenkins on which the triggered build, number 7, succeeds at the
    fourth poll; the polls are 30 seconds apart. *)
Definition example_server : Server := {|
  invoke := fun _ => Returns 7%nat;
  builds := fun k =>
    [{| build_id := 7; build_job := "test-project";
        build_status := if (k <? 3)%nat then None else Some STATUS_SUCCESS |}];
  clock := fun k => inject_Z (30 * Z.of_nat k)
|}.

(** A Jenkins on which the build never gets a status. *)
Definition stuck_server : Server := {|
  invoke := invoke example_server;
  builds := fun _ =>
    [{| build_id := 7; build_job := "test-project"; build_status := None |}];
  clock := clock example_server
|}.

(** A Jenkins whose build has finished with SUCCESS. *)
Definition succeeds : JenkinsTriggerBuild.TriggerBuild :=
  fun _ => Some (Returns (Status STATUS_SUCCESS)).

(** A command line of the trigger with every option but [--url],
    [--timeout] and [--expected-status]. *)
Definition example_trigger : JenkinsTriggerBuild.CommandLine := {|
  JenkinsTriggerBuild.url := None;
  JenkinsTriggerBuild.user_name := Some "deployer";
  JenkinsTriggerBuild.user_token := None;
  JenkinsTriggerBuild.job := Some "test-project";
  JenkinsTriggerBuild.token := Some "s3cret";
  JenkinsTriggerBuild.cause := None;
  JenkinsTriggerBuild.param := [("FOO", "bar")];
  JenkinsTriggerBuild.timeout := None;
  JenkinsTriggerBuild.expected_status := None;
  JenkinsTriggerBuild.environ := fun name =>
    if name =? "JENKINS_USER_TOKEN" then Some "11aa22bb" else None
|}.

(** What click passes to [trigger] for it. *)
Definition example_arguments : JenkinsTriggerBuild.TriggerArgs := {|
  JenkinsTriggerBuild.arg_url := "https://test-jenkins.testeng.edx.org";
  JenkinsTriggerBuild.arg_user_name := "deployer";
  JenkinsTriggerBuild.arg_user_token := "11aa22bb";
  JenkinsTriggerBuild.arg_job := "test-project";
  JenkinsTriggerBuild.arg_token := "s3cret";
  JenkinsTriggerBuild.arg_cause := None;
  JenkinsTriggerBuild.arg_param := [("FOO", "bar")];
  JenkinsTriggerBuild.arg_timeout := inject_Z 1800;
  JenkinsTriggerBuild.arg_expected_status := "SUCCESS"
|}.


End Examples.


(* ================================================================== *)
(** * The runs of the publisher, case by case                         *)
(* ================================================================== *)

Module Shapes.
Import FrontendDeploy.

(** The message of the first option check that fails, in the order of
    the checks. *)
Definition missing_message (c : CommandLine) : string :=
  if negb (given (env_config_file c))
  then "Environment config file was not specified."
  else if negb (given (app_name c))
  then "Frontend application name was not specified."
  else "Frontend application dist path was not specified.".

(** The options are given and the config file is a mapping [d] that
    names the bucket, by a value that counts as true. *)
Definition configured (w : World) (c : CommandLine)
    (d : list (string * PyVal)) (bucket_name : PyVal) : Prop :=
  options_given c /\
  load_config w (str (env_config_file c)) = Returns (PyDict d) /\
  assoc "S3_BUCKET_NAME" d = Some bucket_name /\
  truthy bucket_name = true.

(** The sync command of a run. *)
Definition command (w : World) (c : CommandLine) (bucket_name : PyVal)
  : string :=
  sync_command (str (app_dist c)) (format w bucket_name).

Definition deployed_message (w : World) (c : CommandLine)
    (bucket_name : PyVal) : string :=
  "Frontend application " ++ str (app_name c)
  ++ " successfully deployed to " ++ format w bucket_name ++ ".".

(** The run that reaches the CDN step: what the step does, then the
    last log line if the step went through. *)
Definition purge_run (w : World) (c : CommandLine) (bucket : string)
  : list Event * Outcome :=
  let m := after [EvOpen (str (env_config_file c));
                  EvSubprocess (command w c (PyStr bucket));
                  EvCloudFlare]
             (bind (cdn_step w bucket)
                (fun _ =>
                   bind (LOG (deployed_message w c (PyStr bucket)))
                     (fun _ => ret PyNone))) in
  (trace m, outcome (result m)).

(** The runs of the publisher: each constructor is one way through
    [frontend_deploy], with the condition under which it is taken. *)
Inductive run_shape (w : World) (c : CommandLine)
  : list Event * Outcome -> Prop :=
| shape_option_missing :
    option_missing c ->
    run_shape w c ([EvLog SCRIPT_SHORTNAME (missing_message c)], Exited 1)
| shape_unreadable :
    options_given c ->
    unreadable w c ->
    run_shape w c
      ([EvOpen (str (env_config_file c));
        EvLog SCRIPT_SHORTNAME
          ("Environment config file " ++ str (env_config_file c)
           ++ " could not be opened.")],
       Exited 1)
| shape_load_raises (e : Exn) :
    options_given c ->
    load_config w (str (env_config_file c)) = Throws e ->
    e <> IOError ->
    run_shape w c ([EvOpen (str (env_config_file c))], Uncaught e)
| shape_not_a_mapping (doc : PyVal) :
    options_given c ->
    load_config w (str (env_config_file c)) = Returns doc ->
    (forall d, doc <> PyDict d) ->
    run_shape w c
      ([EvOpen (str (env_config_file c))], Uncaught AttributeError)
| shape_no_bucket (d : list (string * PyVal)) :
    options_given c ->
    load_config w (str (env_config_file c)) = Returns (PyDict d) ->
    (forall v, assoc "S3_BUCKET_NAME" d = Some v -> truthy v = false) ->
    run_shape w c
      ([EvOpen (str (env_config_file c));
        EvLog SCRIPT_SHORTNAME
          ("No S3 bucket name configured for " ++ str (app_name c) ++ ".")],
       Exited 1)
| shape_sync_failed (d : list (string * PyVal)) (bucket_name : PyVal) :
    configured w c d bucket_name ->
    sync w (command w c bucket_name) <> 0%Z ->
    run_shape w c
      ([EvOpen (str (env_config_file c));
        EvSubprocess (command w c bucket_name);
        EvLog SCRIPT_SHORTNAME
          ("Could not sync app " ++ str (app_name c) ++ " with S3 bucket "
           ++ ("s3://" ++ format w bucket_name) ++ ".")],
       Exited 1)
| shape_deployed (d : list (string * PyVal)) (bucket_name : PyVal) :
    configured w c d bucket_name ->
    sync w (command w c bucket_name) = 0%Z ->
    purge_cache c = false ->
    run_shape w c
      ([EvOpen (str (env_config_file c));
        EvSubprocess (command w c bucket_name);
        EvLog SCRIPT_SHORTNAME (deployed_message w c bucket_name)],
       Finished PyNone)
| shape_bucket_not_text (d : list (string * PyVal)) (bucket_name : PyVal) :
    configured w c d bucket_name ->
    sync w (command w c bucket_name) = 0%Z ->
    purge_cache c = true ->
    (forall s, bucket_name <> PyStr s) ->
    run_shape w c
      ([EvOpen (str (env_config_file c));
        EvSubprocess (command w c bucket_name)],
       Uncaught AttributeError)
| shape_purge (d : list (string * PyVal)) (bucket : string) :
    configured w c d (PyStr bucket) ->
    sync w (command w c (PyStr bucket)) = 0%Z ->
    purge_cache c = true ->
    run_shape w c (purge_run w c bucket).


(** The same world with another return code of the sync. *)
Definition with_sync (w : World) (return_code : Z) : World := {|
  load_config := load_config w;
  sync := fun _ => return_code;
  zones_get := zones_get w;
  purge_cache_post := purge_cache_post w;
  repr := repr w
|}.

End Shapes.
Export Shapes.

Module TriggerExamples.
Import JenkinsTriggerBuild.

(** A Jenkins whose build has finished with the status [s]. *)
Definition ends_with (s : string) : TriggerBuild :=
  fun _ => Some (Returns (Status s)).

(** The example command line with [--expected-status v]. *)
Definition example_trigger_expecting (v : string) : CommandLine := {|
  url := url Examples.example_trigger;
  user_name := user_name Examples.example_trigger;
  user_token := user_token Examples.example_trigger;
  job := job Examples.example_trigger;
  token := token Examples.example_trigger;
  cause := cause Examples.example_trigger;
  param := param Examples.example_trigger;
  timeout := timeout Examples.example_trigger;
  expected_status := Some v;
  environ := environ Examples.example_trigger
|}.

End TriggerExamples.

(* ================================================================== *)
(** * Laws of the script computations                                 *)
(* ================================================================== *)

Lemma bind_ok {A B : Type} (t : list Event) (a : A) (k : A -> M B) :
  bind (t, Ok a) k = after t (k a).
Proof. unfold bind, after. destruct (k a). reflexivity. Qed.

Lemma bind_ret_l {A B : Type} (a : A) (k : A -> M B) : bind (ret a) k = k a.
Proof. unfold bind, ret. destruct (k a). reflexivity. Qed.

Lemma bind_emit {B : Type} (e : Event) (k : unit -> M B) :
  bind (emit e) k = after [e] (k tt).
Proof. apply bind_ok. Qed.

Lemma bind_after {A B : Type} (t : list Event) (m : M A) (k : A -> M B) :
  bind (after t m) k = after t (bind m k).
Proof.
  unfold bind, after. destruct m as [t' [a|code|e]]; cbn.
  - destruct (k a). cbn. now rewrite app_assoc.
  - reflexivity.
  - reflexivity.
Qed.

Lemma after_after {A : Type} (t t' : list Event) (m : M A) :
  after t (after t' m) = after (t ++ t') m.
Proof. unfold after. cbn. now rewrite app_assoc. Qed.

(* ================================================================== *)
(** * Host names: [split] and [join]                                  *)
(* ================================================================== *)

Section HostNames.

Lemma split_not_nil (sep : ascii) (s : string) : split sep s <> [].
Proof.
  destruct s as [|c s]; cbn; [discriminate|].
  destruct (Ascii.eqb c sep); [discriminate|].
  destruct (split sep s); discriminate.
Qed.

(** A label is one piece. *)
Lemma split_label (s : string) : label s -> split "." s = [s].
Proof.
  unfold label. induction s as [|c s IH]; cbn; [reflexivity|].
  destruct (Ascii.eqb c "."); cbn; [discriminate|].
  intros H. now rewrite (IH H).
Qed.

(** A label, a dot, and more: the label is the first piece. *)
Lemma split_label_dot (s rest : string) :
  label s -> split "." (s ++ String "." rest) = s :: split "." rest.
Proof.
  unfold label. induction s as [|c s IH]; cbn; [reflexivity|].
  destruct (Ascii.eqb c "."); cbn; [discriminate|].
  intros H. now rewrite (IH H).
Qed.

(** Splitting undoes joining, on labels. *)
Lemma split_join (labels : list string) :
  labels <> [] -> Forall label labels ->
  split "." (join "." labels) = labels.
Proof.
  induction labels as [|x [|y l] IH]; intros Hne Hl.
  - congruence.
  - cbn. apply split_label. now inversion Hl.
  - inversion Hl as [|? ? Hx Hrest]; subst.
    change (join "." (x :: y :: l))
      with (x ++ String "." (join "." (y :: l))).
    rewrite (split_label_dot _ _ Hx). f_equal.
    apply IH; [discriminate|assumption].
Qed.

(** Every string is the join of its pieces, and the pieces are
    labels. *)
Lemma join_split (s : string) : join "." (split "." s) = s.
Proof.
  induction s as [|c s IH]; [reflexivity|].
  cbn [split]. destruct (Ascii.eqb_spec c ".") as [->|Hc].
  - pose proof (split_not_nil "." s) as Hne.
    destruct (split "." s) as [|w ws]; [congruence|].
    change (join "." (EmptyString :: w :: ws))
      with (String "." (join "." (w :: ws))).
    now rewrite IH.
  - pose proof (split_not_nil "." s) as Hne.
    destruct (split "." s) as [|w ws]; [congruence|].
    rewrite <- IH. destruct ws; reflexivity.
Qed.

(** The last two of a list that ends with [a] and [b]. *)
Lemma last_n_two {A : Type} (front : list A) (a b : A) :
  last_n 2 (front ++ [a; b])%list = [a; b].
Proof.
  unfold last_n. rewrite length_app. cbn [length].
  replace (length front + 2 - 2)%nat with (length front + 0)%nat by lia.
  rewrite skipn_app, Nat.add_0_r, skipn_all.
  replace (length front - length front)%nat with 0%nat by lia.
  reflexivity.
Qed.

Lemma split_labels (s : string) : Forall label (split "." s).
Proof.
  induction s as [|c s IH]; cbn [split].
  - repeat constructor.
  - destruct (Ascii.eqb c ".") eqn:Hc.
    + constructor; [reflexivity|assumption].
    + destruct (split "." s) as [|w ws].
      * constructor; [|constructor]. unfold label. cbn. now rewrite Hc.
      * inversion IH as [|? ? Hw Hws]; subst. constructor; [|assumption].
        unfold label in *. cbn. now rewrite Hc.
Qed.

End HostNames.

Section Zones.

Lemma append_nil_r (s : string) : s ++ EmptyString = s.
Proof. induction s as [|ch s IH]; cbn; [reflexivity|now rewrite IH]. Qed.

Lemma append_assoc (s t u : string) : (s ++ t) ++ u = s ++ t ++ u.
Proof. induction s as [|ch s IH]; cbn; [reflexivity|now rewrite IH]. Qed.

(** The join of a tail of a list ends the join of the list. *)
Lemma join_skipn (sep : string) (n : nat) :
  forall l, exists front, join sep l = front ++ join sep (skipn n l).
Proof.
  induction n as [|n IH]; intros l.
  - exists EmptyString. reflexivity.
  - destruct l as [|x l]; [exists EmptyString; reflexivity|].
    cbn [skipn]. destruct (IH l) as [front E].
    destruct l as [|y l].
    + exists x. rewrite skipn_nil.
      change (x = x ++ EmptyString). now rewrite append_nil_r.
    + exists (x ++ sep ++ front).
      change (join sep (x :: y :: l)) with (x ++ sep ++ join sep (y :: l)).
      now rewrite E, !append_assoc.
Qed.

Lemma last_n_length {A : Type} (n : nat) (l : list A) :
  (length (last_n n l) <= n)%nat.
Proof. unfold last_n. rewrite length_skipn. lia. Qed.

Lemma last_n_short {A : Type} (n : nat) (l : list A) :
  (length l <= n)%nat -> last_n n l = l.
Proof.
  intros H. unfold last_n.
  replace (length l - n)%nat with 0%nat by lia. reflexivity.
Qed.

Lemma last_n_not_nil {A : Type} (n : nat) (l : list A) :
  l <> [] -> last_n (S n) l <> [].
Proof.
  intros Hl H. apply (f_equal (@length A)) in H.
  unfold last_n in H. rewrite length_skipn in H.
  destruct l; [congruence|]. cbn [length] in H. lia.
Qed.

Lemma Forall_skipn {A : Type} (P : A -> Prop) (n : nat) :
  forall l, Forall P l -> Forall P (skipn n l).
Proof.
  induction n as [|n IH]; intros l H; [exact H|].
  destruct l as [|x l]; [constructor|].
  cbn. apply IH. now inversion H.
Qed.

(** The pieces of the zone are the last two pieces of the bucket. *)
Lemma split_zone (bucket : string) :
  split "." (zone_of bucket) = last_n 2 (split "." bucket).
Proof.
  unfold zone_of. apply split_join.
  - apply last_n_not_nil, split_not_nil.
  - apply Forall_skipn, split_labels.
Qed.

End Zones.

(* ================================================================== *)
(** * The frontend publisher                                          *)
(* ================================================================== *)

Section Publisher.
Import FrontendDeploy Examples.
Local Arguments String.append : simpl never.

Ltac split_match :=
  match goal with
  | |- context [match ?x with _ => _ end] => destruct x eqn:?
  end.

Ltac use_facts :=
  repeat match goal with
         | H : ?x = _ |- context [?x] => rewrite H
         end.

Ltac run :=
  unfold main, frontend_deploy, purge, options_given, option_missing,
    given, sync_command, zone_of, hosts in *;
  cbn in *.

(** Splits on the three options of the command line: absent, empty,
    or a text. *)
Ltac options_cases c :=
  destruct c as [[cfile|] [cname|] [cdist|] cpurge]; run;
  try destruct (cfile =? EmptyString) eqn:?;
  try destruct (cname =? EmptyString) eqn:?;
  try destruct (cdist =? EmptyString) eqn:?; cbn in *.

(** With an option missing the run is one log line and [sys.exit(1)]. *)
Lemma run_option_missing w c :
  option_missing c ->
  exists msg, main w c = ([EvLog SCRIPT_SHORTNAME msg], Exited 1).
Proof.
  intros H. options_cases c; eauto;
    destruct H as [H|[H|H]]; discriminate.
Qed.

(** With the options given, a config without a bucket name (no key, or
    a falsy value) is one log line and [sys.exit(1)] before the sync. *)
Lemma run_no_bucket w c d :
  options_given c ->
  load_config w (str (env_config_file c)) = Returns (PyDict d) ->
  match assoc "S3_BUCKET_NAME" d with
  | Some v => truthy v = false
  | None => True
  end ->
  main w c =
    ([EvOpen (str (env_config_file c));
      EvLog SCRIPT_SHORTNAME
        ("No S3 bucket name configured for " ++ str (app_name c) ++ ".")],
     Exited 1).
Proof.
  intros (Hf & Ha & Hd) Hl Hb.
  options_cases c; try discriminate.
  rewrite Hl. cbn.
  destruct (assoc "S3_BUCKET_NAME" d) as [v|]; cbn.
  - rewrite Hb. reflexivity.
  - reflexivity.
Qed.

(** C6. A config file that parses but holds no [S3_BUCKET_NAME] key
    ends the publisher with exit status 1, and no sync subprocess is
    started.  When the three options are given and the document is a
    mapping, the run is exactly: open the file, log "No S3 bucket name
    configured for <app>.", exit 1. *)
Theorem C6_no_bucket_key_fails_before_sync
    (w : World) (c : CommandLine) (doc : PyVal) :
  load_config w (str (env_config_file c)) = Returns doc ->
  has_key doc "S3_BUCKET_NAME" = false ->
  exit_status (snd (main w c)) = 1%Z /\
  none_of is_sync (fst (main w c)) /\
  (options_given c -> forall d, doc = PyDict d ->
   main w c =
     ([EvOpen (str (env_config_file c));
       EvLog SCRIPT_SHORTNAME
         ("No S3 bucket name configured for " ++ str (app_name c) ++ ".")],
      Exited 1)).
Proof.
  intros Hl Hk.
  assert (Hmap : options_given c -> forall d, doc = PyDict d ->
            main w c =
              ([EvOpen (str (env_config_file c));
                EvLog SCRIPT_SHORTNAME
                  ("No S3 bucket name configured for "
                   ++ str (app_name c) ++ ".")],
               Exited 1)).
  { intros Hg d ->. apply (run_no_bucket w c d Hg Hl).
    cbn in Hk. destruct (assoc "S3_BUCKET_NAME" d); [discriminate|exact I]. }
  split; [|split]; [| |exact Hmap].
  - options_cases c; try reflexivity.
    rewrite Hl; cbn. destruct doc as [| | | | |conf]; cbn in *; try reflexivity.
    destruct (assoc "S3_BUCKET_NAME" conf); [discriminate|reflexivity].
  - options_cases c; try reflexivity.
    rewrite Hl; cbn. destruct doc as [| | | | |conf]; cbn in *; try reflexivity.
    destruct (assoc "S3_BUCKET_NAME" conf); [discriminate|reflexivity].
Qed.

Lemma C6_witness :
  exit_status (snd (main (with_config example_world (Returns (PyDict [])))
                      (example_command false))) = 1%Z /\
  none_of is_sync (fst (main (with_config example_world (Returns (PyDict [])))
                          (example_command false))).
Proof.
  pose proof (C6_no_bucket_key_fails_before_sync
                (with_config example_world (Returns (PyDict [])))
                (example_command false) (PyDict [])
                eq_refl eq_refl) as (H1 & H2 & _).
  exact (conj H1 H2).
Defined.

(** C10. A [S3_BUCKET_NAME] that is present but falsy (empty string,
    null, false, 0, empty list or mapping) makes the publisher run
    exactly as if the key were missing: exit status 1 with the log
    line "No S3 bucket name configured for <app>.", and no sync
    subprocess. *)
Theorem C10_falsy_bucket_name_as_missing
    (w : World) (c : CommandLine) (d d' : list (string * PyVal)) (v : PyVal) :
  assoc "S3_BUCKET_NAME" d = Some v ->
  truthy v = false ->
  assoc "S3_BUCKET_NAME" d' = None ->
  main (with_config w (Returns (PyDict d))) c
    = main (with_config w (Returns (PyDict d'))) c /\
  exit_status (snd (main (with_config w (Returns (PyDict d))) c)) = 1%Z /\
  none_of is_sync (fst (main (with_config w (Returns (PyDict d))) c)) /\
  (options_given c ->
   main (with_config w (Returns (PyDict d))) c =
     ([EvOpen (str (env_config_file c));
       EvLog SCRIPT_SHORTNAME
         ("No S3 bucket name configured for " ++ str (app_name c) ++ ".")],
      Exited 1)).
Proof.
  intros Hd Hv Hd'.
  assert (Hrun : options_given c ->
            main (with_config w (Returns (PyDict d))) c =
              ([EvOpen (str (env_config_file c));
                EvLog SCRIPT_SHORTNAME
                  ("No S3 bucket name configured for "
                   ++ str (app_name c) ++ ".")],
               Exited 1)).
  { intros Hg.
    apply (run_no_bucket (with_config w (Returns (PyDict d))) c d Hg eq_refl).
    now rewrite Hd. }
  assert (Hrun' : options_given c ->
            main (with_config w (Returns (PyDict d'))) c =
              ([EvOpen (str (env_config_file c));
                EvLog SCRIPT_SHORTNAME
                  ("No S3 bucket name configured for "
                   ++ str (app_name c) ++ ".")],
               Exited 1)).
  { intros Hg.
    apply (run_no_bucket (with_config w (Returns (PyDict d'))) c d' Hg
             eq_refl).
    now rewrite Hd'. }
  destruct (given (env_config_file c) && given (app_name c)
            && given (app_dist c)) eqn:Hg.
  - apply andb_prop in Hg as [Hg Hg3]. apply andb_prop in Hg as [Hg1 Hg2].
    assert (G : options_given c) by (repeat split; assumption).
    rewrite (Hrun G), (Hrun' G). repeat split.
  - assert (G : option_missing c).
    { unfold option_missing.
      destruct (given (env_config_file c)); [|now left].
      destruct (given (app_name c)); [|now right; left].
      destruct (given (app_dist c)); [discriminate|now right; right]. }
    destruct (run_option_missing (with_config w (Returns (PyDict d))) c G)
      as [msg E].
    destruct (run_option_missing (with_config w (Returns (PyDict d'))) c G)
      as [msg' E'].
    assert (main (with_config w (Returns (PyDict d))) c
            = main (with_config w (Returns (PyDict d'))) c) as Heq.
    { clear - G. options_cases c; try reflexivity;
        destruct G as [G|[G|G]]; discriminate. }
    split; [exact Heq|]. split; [now rewrite E|]. split; [now rewrite E|].
    exact Hrun.
Qed.

Lemma C10_witness :
  main (with_config example_world
          (Returns (PyDict [("S3_BUCKET_NAME", PyStr EmptyString)])))
       (example_command true)
  = main (with_config example_world (Returns (PyDict [])))
       (example_command true).
Proof.
  exact (proj1 (C10_falsy_bucket_name_as_missing example_world
                  (example_command true)
                  [("S3_BUCKET_NAME", PyStr EmptyString)] [] (PyStr EmptyString)
                  eq_refl eq_refl eq_refl)).
Defined.

Ltac absurd_in H :=
  cbn in H;
  repeat match type of H with
         | _ \/ _ => destruct H as [H|H]; try discriminate H
         | False => destruct H
         end.

(** C8. When the sync subprocess has been started and exits with
    code 0, and the purge-cache flag is unset, the publisher returns
    (exit status 0); the CloudFlare client is neither constructed nor
    called.  The run is: open the config, sync, log the success. *)
Theorem C8_sync_ok_without_purge
    (w : World) (c : CommandLine) (cmd : string) :
  In (EvSubprocess cmd) (fst (main w c)) ->
  sync w cmd = 0%Z ->
  purge_cache c = false ->
  exit_status (snd (main w c)) = 0%Z /\
  snd (main w c) = Finished PyNone /\
  none_of is_cdn (fst (main w c)) /\
  exists msg,
    fst (main w c) = [EvOpen (str (env_config_file c)); EvSubprocess cmd;
                      EvLog SCRIPT_SHORTNAME msg].
Proof.
  intros Hin Hs Hp.
  options_cases c; subst; try (absurd_in Hin; fail).
  destruct (load_config w cfile) as [doc|e]; cbn in *.
  - destruct doc as [| | | | |conf]; cbn in *; try (absurd_in Hin; fail).
    destruct (assoc "S3_BUCKET_NAME" conf) as [bucket_name|]; cbn in *;
      try (absurd_in Hin; fail).
    destruct (truthy bucket_name) eqn:Ht; cbn in *; try (absurd_in Hin; fail).
    match type of Hin with
    | context [sync w ?x] =>
        destruct (sync w x =? 0)%Z eqn:Ez; cbn in *;
        destruct Hin as [H|[H|H]]; try discriminate H;
        try (absurd_in H; fail); inversion H; subst cmd
    end.
    + repeat split. eauto.
    + rewrite Hs in Ez. discriminate.
  - destruct e; cbn in *; absurd_in Hin.
Qed.

Lemma C8_witness :
  exit_status (snd (main example_world (example_command false))) = 0%Z /\
  none_of is_cdn (fst (main example_world (example_command false))).
Proof.
  pose proof (C8_sync_ok_without_purge example_world (example_command false)
                "aws s3 sync dist s3://www.example.com --delete"
                (or_intror (or_introl eq_refl)) eq_refl eq_refl)
    as (H1 & _ & H2 & _).
  exact (conj H1 H2).
Defined.

(** With an unreadable config file the run is: open, one log line,
    [sys.exit(1)]. *)
Lemma run_unreadable w c :
  options_given c -> unreadable w c ->
  main w c =
    ([EvOpen (str (env_config_file c));
      EvLog SCRIPT_SHORTNAME
        ("Environment config file " ++ str (env_config_file c)
         ++ " could not be opened.")],
     Exited 1).
Proof.
  unfold unreadable. intros (Hf & Ha & Hd) Hl.
  options_cases c; try discriminate.
  rewrite Hl. reflexivity.
Qed.

(** Any other exception of the load leaves the script as it is. *)
Lemma run_load_raises w c e :
  options_given c ->
  load_config w (str (env_config_file c)) = Throws e ->
  e <> IOError ->
  main w c = ([EvOpen (str (env_config_file c))], Uncaught e).
Proof.
  intros (Hf & Ha & Hd) Hl He.
  options_cases c; try discriminate.
  rewrite Hl. destruct e; try reflexivity. congruence.
Qed.

(** C7, the claim as worded fails: a config file whose text is not
    YAML ends the publisher with the parser's exception, and no log
    line is written. *)
Lemma C7_counterexample :
  options_given (example_command false) /\
  malformed (with_config example_world (Throws YAMLError))
    (example_command false) /\
  ~ fails_with_log_line_naming "env.yml"
      (main (with_config example_world (Throws YAMLError))
         (example_command false)).
Proof.
  split; [repeat split|]. split; [reflexivity|].
  intros (_ & _ & msg & H & _). cbn in H. discriminate H.
Qed.

(** C7, amended.  With the three options given: an unreadable config
    file (IOError) ends the publisher, before any remote call, with
    the one log line "Environment config file <path> could not be
    opened." under the label of the script, and exit status 1; a
    config file that is not YAML ends it, before any remote call and
    with exit status 1, by the uncaught exception of the parser. *)
Theorem C7_config_unreadable_or_malformed (w : World) (c : CommandLine) :
  options_given c ->
  (unreadable w c ->
   fails_with_log_line_naming (str (env_config_file c)) (main w c) /\
   main w c =
     ([EvOpen (str (env_config_file c));
       EvLog SCRIPT_SHORTNAME
         ("Environment config file " ++ str (env_config_file c)
          ++ " could not be opened.")],
      Exited 1)) /\
  (malformed w c ->
   main w c = ([EvOpen (str (env_config_file c))], Uncaught YAMLError) /\
   exit_status (snd (main w c)) = 1%Z /\
   none_of is_remote (fst (main w c))).
Proof.
  intros Hg. split.
  - intros Hu. rewrite (run_unreadable w c Hg Hu).
    split; [|reflexivity].
    split; [reflexivity|]. split; [reflexivity|].
    eexists. split; [reflexivity|].
    exists "Environment config file ", " could not be opened.". reflexivity.
  - intros Hm. rewrite (run_load_raises w c YAMLError Hg Hm); [|discriminate].
    repeat split.
Qed.

Lemma C7_witness :
  main (with_config example_world (Throws IOError)) (example_command false)
  = ([EvOpen "env.yml";
      EvLog "Deploy frontend"
        "Environment config file env.yml could not be opened."],
     Exited 1).
Proof.
  assert (G : options_given (example_command false)) by (repeat split).
  exact (proj2 (proj1 (C7_config_unreadable_or_malformed
                         (with_config example_world (Throws IOError))
                         (example_command false) G) eq_refl)).
Defined.

(** The run up to the CDN step, when the purge is asked for: the
    config is opened, the sync has succeeded, the client is built. *)
Lemma run_to_cdn_step w c d bucket :
  options_given c ->
  purge_cache c = true ->
  load_config w (str (env_config_file c)) = Returns (PyDict d) ->
  assoc "S3_BUCKET_NAME" d = Some (PyStr bucket) ->
  bucket <> EmptyString ->
  sync w (sync_command (str (app_dist c)) bucket) = 0%Z ->
  frontend_deploy w (env_config_file c) (app_name c) (app_dist c)
    (purge_cache c) =
  after [EvOpen (str (env_config_file c));
         EvSubprocess (sync_command (str (app_dist c)) bucket);
         EvCloudFlare]
    (bind (cdn_step w bucket)
       (fun _ =>
          bind (LOG ("Frontend application " ++ str (app_name c)
                     ++ " successfully deployed to " ++ bucket ++ "."))
            (fun _ => ret PyNone))).
Proof.
  intros (Hf & Ha & Hd) Hp Hl Hb Hne Hs.
  assert (Hne' : (bucket =? EmptyString) = false) by now apply String.eqb_neq.
  unfold given in *. unfold frontend_deploy.
  rewrite Hf, Ha, Hd, Hp. cbn [negb when]. rewrite !bind_ret_l.
  rewrite Hl.
  change (try_except _ [IOError] _)
    with ([EvOpen (str (env_config_file c))], @Ok PyVal (PyDict d)).
  rewrite bind_ok.
  unfold get. rewrite Hb. cbn [call]. rewrite bind_ret_l.
  cbn [truthy]. rewrite Hne'. cbn [negb when]. rewrite bind_ret_l.
  cbv zeta. rewrite bind_emit. cbn [format].
  change (join " " _) with (sync_command (str (app_dist c)) bucket).
  rewrite Hs. cbn [Z.eqb negb when]. rewrite bind_ret_l.
  cbn [split_dot call]. rewrite bind_ret_l, bind_emit, bind_after.
  rewrite !after_after. reflexivity.
Qed.


Local Arguments item0 : simpl never.
Local Arguments item : simpl never.

(** Whatever CloudFlare answers, the CDN step looks up one zone, the
    zone of the bucket, and it does so first. *)
Lemma cdn_step_lookup w bucket :
  exists rest,
    trace (cdn_step w bucket) = EvZonesGet (zone_of bucket) :: rest /\
    none_of is_zone_lookup rest.
Proof.
  unfold cdn_step, purge. cbn.
  repeat (match goal with
          | |- context [call ?r] => destruct r as [?|[]]
          end; cbn);
    eexists; split; reflexivity.
Qed.

(** Whatever CloudFlare answers, the CDN step starts no subprocess,
    and if it exits, it exits with code 1. *)
Lemma cdn_step_result w bucket :
  none_of is_sync (trace (cdn_step w bucket)) /\
  forall code, result (cdn_step w bucket) = Exit code -> code = 1%Z.
Proof.
  unfold cdn_step, purge. cbn.
  repeat (match goal with
          | |- context [call ?r] => destruct r as [?|[]]
          end; cbn);
    (split; [reflexivity|]); intros code H; inversion H; reflexivity.
Qed.


(** What the CDN step has logged when it does not go through: the
    one line of the handler, last, when it exits; nothing when it
    raises. *)
Lemma cdn_step_logs w bucket :
  match result (cdn_step w bucket) with
  | Ok _ => True
  | Exit _ =>
      exists calls msg,
        trace (cdn_step w bucket)
        = (calls ++ [EvLog SCRIPT_SHORTNAME msg])%list /\
        none_of is_log calls
  | Raise _ => none_of is_log (trace (cdn_step w bucket))
  end.
Proof.
  unfold cdn_step, purge. cbn.
  repeat (match goal with
          | |- context [call ?r] => destruct r as [?|[]]
          end; cbn);
    first [ exact I
          | reflexivity
          | eexists [_], _; split; reflexivity
          | eexists [_; _], _; split; reflexivity ].
Qed.




(** C4. With the purge asked for, the name passed to the zone lookup
    of the CDN is the last two dot-separated labels of the bucket
    name, joined by a dot (for [www.example.com]: [example.com]); it is
    the only zone lookup of the run. *)
Theorem C4_zone_is_last_two_labels
    (w : World) (c : CommandLine) (d : list (string * PyVal))
    (bucket : string) (labels : list string) :
  options_given c ->
  purge_cache c = true ->
  load_config w (str (env_config_file c)) = Returns (PyDict d) ->
  assoc "S3_BUCKET_NAME" d = Some (PyStr bucket) ->
  sync w (sync_command (str (app_dist c)) bucket) = 0%Z ->
  bucket <> EmptyString ->
  Forall label labels ->
  bucket = join "." labels ->
  filter is_zone_lookup (fst (main w c))
    = [EvZonesGet (join "." (last_n 2 labels))] /\
  (forall front a b,
     labels = (front ++ [a; b])%list ->
     filter is_zone_lookup (fst (main w c)) = [EvZonesGet (a ++ "." ++ b)]).
Proof.
  intros Hg Hp Hl Hb Hs Hne Hlab Hj.
  assert (Hnil : labels <> []) by (intros ->; now apply Hne).
  assert (Hz : zone_of bucket = join "." (last_n 2 labels)).
  { unfold zone_of. now rewrite Hj, split_join. }
  assert (Hrun : filter is_zone_lookup (fst (main w c))
                 = [EvZonesGet (join "." (last_n 2 labels))]).
  { unfold main. cbv zeta.
    rewrite (run_to_cdn_step w c d bucket Hg Hp Hl Hb Hne Hs).
    destruct (cdn_step_lookup w bucket) as (rest & E & Hrest).
    rewrite <- Hz. unfold none_of in Hrest.
    destruct (cdn_step w bucket) as [t [[]|code|e]]; cbn in E; subst t; cbn;
      rewrite ?filter_app, ?Hrest; reflexivity. }
  split; [exact Hrun|].
  intros front a b ->. rewrite Hrun, last_n_two. reflexivity.
Qed.

Lemma C4_witness :
  filter is_zone_lookup (fst (main example_world (example_command true)))
  = [EvZonesGet "example.com"].
Proof.
  assert (G : options_given (example_command true)) by (repeat split).
  assert (N : "www.example.com" <> EmptyString) by discriminate.
  assert (L : Forall label ["www"; "example"; "com"])
    by (repeat constructor).
  exact (proj1
           (C4_zone_is_last_two_labels example_world (example_command true)
              [("S3_BUCKET_NAME", PyStr "www.example.com")]
              "www.example.com" ["www"; "example"; "com"]
              G eq_refl eq_refl eq_refl eq_refl N L eq_refl)).
Defined.

(* ------------------------------------------------------------------ *)
(** ** Every run of the publisher                                      *)
(* ------------------------------------------------------------------ *)

Lemma FAIL_run (code : Z) (msg : string) :
  FAIL code msg = ([EvLog SCRIPT_SHORTNAME msg], Exit code).
Proof. reflexivity. Qed.

Lemma LOG_run (msg : string) :
  LOG msg = ([EvLog SCRIPT_SHORTNAME msg], Ok tt).
Proof. reflexivity. Qed.

Lemma bind_exit {A B : Type} (t : list Event) (code : Z) (k : A -> M B) :
  bind (t, Exit code) k = (t, Exit code).
Proof. reflexivity. Qed.

Lemma bind_raise {A B : Type} (t : list Event) (e : Exn) (k : A -> M B) :
  bind (t, Raise e) k = (t, Raise e).
Proof. reflexivity. Qed.

(** The script up to the sync command, when the config names a
    bucket: the file is opened, the command is started. *)
Ltac to_sync Hc :=
  let Hf := fresh in
  let Ha := fresh in
  let Hd := fresh in
  let Hl := fresh in
  let Hb := fresh in
  let Ht := fresh in
  destruct Hc as ((Hf & Ha & Hd) & Hl & Hb & Ht);
  unfold given in Hf, Ha, Hd; unfold frontend_deploy;
  rewrite Hf, Ha, Hd; cbn [negb when]; rewrite !bind_ret_l;
  rewrite Hl;
  match type of Hl with
  | load_config _ ?path = Returns ?doc =>
      change (try_except _ [IOError] _) with ([EvOpen path], @Ok PyVal doc)
  end;
  rewrite bind_ok; cbn [get]; rewrite Hb; cbn [call]; rewrite bind_ret_l;
  rewrite Ht; cbn [negb when]; rewrite bind_ret_l;
  cbv zeta; rewrite bind_emit;
  match goal with
  | |- context [sync ?w (join " " ?l)] =>
      match l with
      | [_; ?dist; "s3://" ++ ?b; _] =>
          change (join " " l) with (sync_command dist b)
      end
  end.

Lemma deploy_option_missing w c :
  option_missing c ->
  frontend_deploy w (env_config_file c) (app_name c) (app_dist c)
    (purge_cache c)
  = ([EvLog SCRIPT_SHORTNAME (missing_message c)], Exit 1).
Proof.
  intros H. unfold missing_message.
  options_cases c; try reflexivity; destruct H as [H|[H|H]]; discriminate.
Qed.

Lemma deploy_not_a_mapping w c doc :
  options_given c ->
  load_config w (str (env_config_file c)) = Returns doc ->
  (forall d, doc <> PyDict d) ->
  frontend_deploy w (env_config_file c) (app_name c) (app_dist c)
    (purge_cache c)
  = ([EvOpen (str (env_config_file c))], Raise AttributeError).
Proof.
  intros (Hf & Ha & Hd) Hl Hdoc.
  unfold given in Hf, Ha, Hd. unfold frontend_deploy.
  rewrite Hf, Ha, Hd. cbn [negb when]. rewrite !bind_ret_l.
  rewrite Hl.
  change (try_except _ [IOError] _)
    with ([EvOpen (str (env_config_file c))], @Ok PyVal doc).
  rewrite bind_ok.
  destruct doc as [| | | | |d]; try reflexivity.
  now destruct (Hdoc d).
Qed.

Lemma deploy_sync_failed w c d bucket_name :
  configured w c d bucket_name ->
  sync w (command w c bucket_name) <> 0%Z ->
  frontend_deploy w (env_config_file c) (app_name c) (app_dist c)
    (purge_cache c)
  = ([EvOpen (str (env_config_file c));
      EvSubprocess (command w c bucket_name);
      EvLog SCRIPT_SHORTNAME
        ("Could not sync app " ++ str (app_name c) ++ " with S3 bucket "
         ++ ("s3://" ++ format w bucket_name) ++ ".")],
     Exit 1).
Proof.
  intros Hc Hs. to_sync Hc. fold (command w c bucket_name).
  apply Z.eqb_neq in Hs. rewrite Hs. cbn [negb when].
  rewrite FAIL_run, bind_exit. reflexivity.
Qed.

Lemma deploy_without_purge w c d bucket_name :
  configured w c d bucket_name ->
  sync w (command w c bucket_name) = 0%Z ->
  purge_cache c = false ->
  frontend_deploy w (env_config_file c) (app_name c) (app_dist c)
    (purge_cache c)
  = ([EvOpen (str (env_config_file c));
      EvSubprocess (command w c bucket_name);
      EvLog SCRIPT_SHORTNAME (deployed_message w c bucket_name)],
     Ok PyNone).
Proof.
  intros Hc Hs Hp. to_sync Hc. fold (command w c bucket_name).
  rewrite Hs, Hp. cbn [Z.eqb negb when]. rewrite !bind_ret_l, LOG_run.
  reflexivity.
Qed.

Lemma deploy_bucket_not_text w c d bucket_name :
  configured w c d bucket_name ->
  sync w (command w c bucket_name) = 0%Z ->
  purge_cache c = true ->
  (forall s, bucket_name <> PyStr s) ->
  frontend_deploy w (env_config_file c) (app_name c) (app_dist c)
    (purge_cache c)
  = ([EvOpen (str (env_config_file c));
      EvSubprocess (command w c bucket_name)],
     Raise AttributeError).
Proof.
  intros Hc Hs Hp Hb. to_sync Hc. fold (command w c bucket_name).
  rewrite Hs, Hp. cbn [Z.eqb negb when]. rewrite bind_ret_l.
  destruct bucket_name as [| | |s| |]; try reflexivity.
  now destruct (Hb s).
Qed.

Lemma main_of_deploy w c t r :
  frontend_deploy w (env_config_file c) (app_name c) (app_dist c)
    (purge_cache c) = (t, r) ->
  main w c = (t, outcome r).
Proof. unfold main. cbv zeta. now intros ->. Qed.

(** Every run of the publisher is one of the nine of [run_shape]. *)
Lemma every_run w c : run_shape w c (main w c).
Proof.
  destruct (given (env_config_file c)) eqn:Hf.
  2: { assert (H : option_missing c) by now left.
       rewrite (main_of_deploy _ _ _ _ (deploy_option_missing w c H)).
       now apply shape_option_missing. }
  destruct (given (app_name c)) eqn:Ha.
  2: { assert (H : option_missing c) by now right; left.
       rewrite (main_of_deploy _ _ _ _ (deploy_option_missing w c H)).
       now apply shape_option_missing. }
  destruct (given (app_dist c)) eqn:Hd.
  2: { assert (H : option_missing c) by now right; right.
       rewrite (main_of_deploy _ _ _ _ (deploy_option_missing w c H)).
       now apply shape_option_missing. }
  assert (Hg : options_given c) by (repeat split; assumption).
  destruct (load_config w (str (env_config_file c))) as [doc|e] eqn:Hl.
  - assert (Hother : (forall d, doc <> PyDict d) -> run_shape w c (main w c)).
    { intros Hdoc.
      rewrite (main_of_deploy _ _ _ _
                 (deploy_not_a_mapping w c doc Hg Hl Hdoc)).
      now apply (shape_not_a_mapping w c doc). }
    destruct doc as [| | | | |d]; try (apply Hother; discriminate).
    clear Hother.
    assert (Hnone : (forall v, assoc "S3_BUCKET_NAME" d = Some v ->
                               truthy v = false) ->
                    run_shape w c (main w c)).
    { intros Hv. rewrite (run_no_bucket w c d Hg Hl).
      - now apply (shape_no_bucket w c d).
      - destruct (assoc "S3_BUCKET_NAME" d) as [v|]; [now apply Hv|exact I]. }
    destruct (assoc "S3_BUCKET_NAME" d) as [bucket_name|] eqn:Hb;
      [|apply Hnone; discriminate].
    destruct (truthy bucket_name) eqn:Ht;
      [|apply Hnone; intros v Hv; now inversion Hv; subst].
    clear Hnone.
    assert (Hc : configured w c d bucket_name) by (repeat split; assumption).
    destruct (Z.eq_dec (sync w (command w c bucket_name)) 0) as [Hs|Hs].
    2: { rewrite (main_of_deploy _ _ _ _
                    (deploy_sync_failed w c d bucket_name Hc Hs)).
         now apply (shape_sync_failed w c d). }
    destruct (purge_cache c) eqn:Hp.
    2: { rewrite (main_of_deploy _ _ _ _
                    (deploy_without_purge w c d bucket_name Hc Hs Hp)).
         now apply (shape_deployed w c d). }
    assert (Hother : (forall s, bucket_name <> PyStr s) ->
                     run_shape w c (main w c)).
    { intros Hn.
      rewrite (main_of_deploy _ _ _ _
                 (deploy_bucket_not_text w c d bucket_name Hc Hs Hp Hn)).
      now apply (shape_bucket_not_text w c d). }
    destruct bucket_name as [| | |bucket| |]; try (apply Hother; discriminate).
    clear Hother.
    assert (Hne : bucket <> EmptyString).
    { intros ->. discriminate Ht. }
    replace (main w c) with (purge_run w c bucket).
    + now apply (shape_purge w c d).
    + unfold main, purge_run. cbv zeta.
      now rewrite (run_to_cdn_step w c d bucket Hg Hp Hl Hb Hne Hs).
  - destruct e; try (rewrite (run_load_raises w c _ Hg Hl); [|discriminate];
                     apply shape_load_raises; [exact Hg|exact Hl|discriminate]).
    rewrite (run_unreadable w c Hg Hl). now apply shape_unreadable.
Qed.

(** A CDN step that goes through has looked the zone up, purged the
    cache of the host under the id of the first zone, and logged it. *)
Lemma cdn_step_ok w bucket :
  result (cdn_step w bucket) = Ok tt ->
  exists z zs zone_id,
    zones_get w (zone_of bucket) = Returns (PyList (PyDict z :: zs)) /\
    assoc "id" z = Some zone_id /\
    trace (cdn_step w bucket)
    = [EvZonesGet (zone_of bucket);
       EvPurgeCache zone_id (hosts bucket);
       EvLog SCRIPT_SHORTNAME
         ("Successfully purged Cloudflare cache for hostname "
          ++ bucket ++ ".")].
Proof.
  unfold cdn_step, purge. cbn.
  destruct (zones_get w (zone_of bucket)) as [zones|[]]; cbn;
    try discriminate.
  destruct zones as [| | |s|[|zone zs]|]; unfold item0; cbn;
    try discriminate.
  - destruct s; unfold item; cbn; discriminate.
  - destruct zone as [| | | | |z]; unfold item; cbn; try discriminate.
    destruct (assoc "id" z) as [zone_id|] eqn:Hid; cbn; [|discriminate].
    destruct (purge_cache_post w zone_id (hosts bucket)) as [?|[]]; cbn;
      try discriminate.
    intros _. exists z, zs, zone_id. repeat split. exact Hid.
Qed.

(* ------------------------------------------------------------------ *)
(** ** Further properties of the publisher                             *)
(* ------------------------------------------------------------------ *)

(** X1. The three option checks run in the order env-config-file,
    app-name, app-dist, before the config file is opened: with an
    option missing the whole run is the one log line of the first
    check that fails, and [sys.exit(1)]. *)
Theorem X1_options_checked_in_order (w : World) (c : CommandLine) :
  option_missing c ->
  exists msg,
    main w c = ([EvLog SCRIPT_SHORTNAME msg], Exited 1) /\
    (given (env_config_file c) = false ->
     msg = "Environment config file was not specified.") /\
    (given (env_config_file c) = true -> given (app_name c) = false ->
     msg = "Frontend application name was not specified.") /\
    (given (env_config_file c) = true -> given (app_name c) = true ->
     msg = "Frontend application dist path was not specified.").
Proof.
  intros H. exists (missing_message c).
  split; [exact (main_of_deploy _ _ _ _ (deploy_option_missing w c H))|].
  unfold missing_message. repeat split.
  - now intros ->.
  - now intros -> ->.
  - now intros -> ->.
Qed.

Lemma X1_witness :
  main example_world
    {| env_config_file := Some "env.yml"; app_name := None;
       app_dist := None; purge_cache := false |}
  = ([EvLog "Deploy frontend" "Frontend application name was not specified."],
     Exited 1).
Proof.
  destruct (X1_options_checked_in_order example_world
              {| env_config_file := Some "env.yml"; app_name := None;
                 app_dist := None; purge_cache := false |}
              (or_intror (or_introl eq_refl))) as (msg & E & _ & Hname & _).
  rewrite E, (Hname eq_refl eq_refl). reflexivity.
Defined.

(** X2. When the sync command returns a code other than 0 the run
    ends there, with the log line "Could not sync app <app> with S3
    bucket s3://<bucket>." and [sys.exit(1)]; CloudFlare is not
    contacted, with or without the purge flag. *)
Theorem X2_sync_failure_ends_the_run
    (w : World) (c : CommandLine) (d : list (string * PyVal))
    (bucket_name : PyVal) :
  configured w c d bucket_name ->
  sync w (sync_command (str (app_dist c)) (format w bucket_name)) <> 0%Z ->
  main w c =
    ([EvOpen (str (env_config_file c));
      EvSubprocess (sync_command (str (app_dist c)) (format w bucket_name));
      EvLog SCRIPT_SHORTNAME
        ("Could not sync app " ++ str (app_name c) ++ " with S3 bucket s3://"
         ++ format w bucket_name ++ ".")],
     Exited 1) /\
  none_of is_cdn (fst (main w c)).
Proof.
  intros Hc Hs.
  rewrite (main_of_deploy _ _ _ _ (deploy_sync_failed w c d bucket_name Hc Hs)).
  split; reflexivity.
Qed.

Lemma X2_witness :
  main (with_sync example_world 2) (example_command true)
  = ([EvOpen "env.yml";
      EvSubprocess "aws s3 sync dist s3://www.example.com --delete";
      EvLog "Deploy frontend"
        "Could not sync app shop with S3 bucket s3://www.example.com."],
     Exited 1).
Proof.
  assert (Hc : configured (with_sync example_world 2) (example_command true)
                 [("S3_BUCKET_NAME", PyStr "www.example.com")]
                 (PyStr "www.example.com")) by (repeat split).
  assert (Hs : (2 <> 0)%Z) by discriminate.
  exact (proj1 (X2_sync_failure_ends_the_run (with_sync example_world 2)
                  (example_command true) _ _ Hc Hs)).
Defined.

(** X3. The full run with the purge flag: after the sync, the client
    is built, the zone of the bucket is looked up, the cache is purged
    under the id of the first zone of the answer (later zones are not
    used) for the one host that is the bucket name, and both successes
    are logged; the command returns. *)
Theorem X3_purge_run
    (w : World) (c : CommandLine) (d z : list (string * PyVal))
    (zs : list PyVal) (bucket : string) (zone_id reply : PyVal) :
  configured w c d (PyStr bucket) ->
  sync w (sync_command (str (app_dist c)) bucket) = 0%Z ->
  purge_cache c = true ->
  zones_get w (zone_of bucket) = Returns (PyList (PyDict z :: zs)) ->
  assoc "id" z = Some zone_id ->
  purge_cache_post w zone_id (PyDict [("hosts", PyList [PyStr bucket])])
    = Returns reply ->
  main w c =
    ([EvOpen (str (env_config_file c));
      EvSubprocess (sync_command (str (app_dist c)) bucket);
      EvCloudFlare;
      EvZonesGet (zone_of bucket);
      EvPurgeCache zone_id (PyDict [("hosts", PyList [PyStr bucket])]);
      EvLog SCRIPT_SHORTNAME
        ("Successfully purged Cloudflare cache for hostname " ++ bucket ++ ".");
      EvLog SCRIPT_SHORTNAME
        ("Frontend application " ++ str (app_name c)
         ++ " successfully deployed to " ++ bucket ++ ".")],
     Finished PyNone).
Proof.
  intros (Hg & Hl & Hb & Ht) Hs Hp Hz Hid Hpost.
  assert (Hne : bucket <> EmptyString) by (intros ->; discriminate Ht).
  unfold main. cbv zeta.
  rewrite (run_to_cdn_step w c d bucket Hg Hp Hl Hb Hne Hs).
  unfold cdn_step, purge, hosts. rewrite Hz.
  unfold item0, item. cbn. rewrite Hid. cbn. rewrite Hpost. reflexivity.
Qed.

Lemma X3_witness :
  main example_world (example_command true)
  = ([EvOpen "env.yml";
      EvSubprocess "aws s3 sync dist s3://www.example.com --delete";
      EvCloudFlare;
      EvZonesGet "example.com";
      EvPurgeCache (PyStr "023e105f4ecef8ad")
        (PyDict [("hosts", PyList [PyStr "www.example.com"])]);
      EvLog "Deploy frontend"
        "Successfully purged Cloudflare cache for hostname www.example.com.";
      EvLog "Deploy frontend"
        "Frontend application shop successfully deployed to www.example.com."],
     Finished PyNone).
Proof.
  assert (Hc : configured example_world (example_command true)
                 [("S3_BUCKET_NAME", PyStr "www.example.com")]
                 (PyStr "www.example.com")) by (repeat split).
  exact (X3_purge_run example_world (example_command true)
           [("S3_BUCKET_NAME", PyStr "www.example.com")]
           [("id", PyStr "023e105f4ecef8ad")] [] "www.example.com"
           (PyStr "023e105f4ecef8ad") PyNone
           Hc eq_refl eq_refl eq_refl eq_refl eq_refl).
Defined.

(** The events of the run that reaches the CDN step. *)
Lemma purge_run_trace w c bucket :
  exists rest,
    fst (purge_run w c bucket)
    = ([EvOpen (str (env_config_file c));
        EvSubprocess (command w c (PyStr bucket)); EvCloudFlare]
       ++ trace (cdn_step w bucket) ++ rest)%list /\
    none_of is_sync rest /\
    (result (cdn_step w bucket) = Ok tt ->
     rest = [EvLog SCRIPT_SHORTNAME (deployed_message w c (PyStr bucket))] /\
     snd (purge_run w c bucket) = Finished PyNone) /\
    (result (cdn_step w bucket) <> Ok tt ->
     rest = [] /\ exit_status (snd (purge_run w c bucket)) = 1%Z).
Proof.
  unfold purge_run. cbv zeta.
  destruct (cdn_step_result w bucket) as [_ Hcode].
  destruct (cdn_step w bucket) as [t [[]|code|e]]; cbn in *.
  - eexists. split; [reflexivity|]. split; [reflexivity|].
    split; [now intros _|]. intros H. now destruct H.
  - exists []. rewrite app_nil_r. split; [reflexivity|]. split; [reflexivity|].
    split; [discriminate|]. intros _. split; [reflexivity|].
    now apply Hcode.
  - exists []. rewrite app_nil_r. split; [reflexivity|]. split; [reflexivity|].
    split; [discriminate|]. now intros _.
Qed.

(** X4. A subprocess is started only when the three options are given
    and the config file is a mapping that names the bucket by a value
    that counts as true; it is the command
    "aws s3 sync <dist> s3://<bucket> --delete", with the two texts
    inserted as they are, and it is the only subprocess of the run. *)
Theorem X4_sync_only_after_validation
    (w : World) (c : CommandLine) (cmd : string) :
  In (EvSubprocess cmd) (fst (main w c)) ->
  exists d bucket_name,
    configured w c d bucket_name /\
    cmd = "aws s3 sync " ++ str (app_dist c) ++ " s3://"
          ++ format w bucket_name ++ " --delete" /\
    filter is_sync (fst (main w c)) = [EvSubprocess cmd].
Proof.
  intros Hin. pose proof (every_run w c) as R.
  remember (main w c) as r eqn:Er. clear Er.
  destruct R as [H|Hg Hu|e Hg Hl He|doc Hg Hl Hd|d Hg Hl Hb
                 |d b Hc Hs|d b Hc Hs Hp|d b Hc Hs Hp Hb|d b Hc Hs Hp];
    cbn [fst] in *.
  1-5: absurd_in Hin.
  1-3: (destruct Hin as [Hin|[Hin|Hin]]; try discriminate Hin;
        [|absurd_in Hin]; inversion Hin; subst cmd;
        exists d, b; split; [exact Hc|split; reflexivity]).
  destruct (purge_run_trace w c b) as (rest & E & Hrest & _).
  destruct (cdn_step_result w b) as [Hstep _].
  unfold none_of in *.
  assert (Hf : filter is_sync (fst (purge_run w c b))
               = [EvSubprocess (command w c (PyStr b))]).
  { rewrite E. cbn. now rewrite filter_app, Hstep, Hrest. }
  assert (Hin' : In (EvSubprocess cmd)
                    (filter is_sync (fst (purge_run w c b)))).
  { apply filter_In. now split. }
  rewrite Hf in Hin'. destruct Hin' as [Hin'|[]]. inversion Hin'; subst cmd.
  exists d, (PyStr b). split; [exact Hc|]. split; [reflexivity|exact Hf].
Qed.

Lemma X4_witness :
  filter is_sync (fst (main example_world (example_command true)))
  = [EvSubprocess "aws s3 sync dist s3://www.example.com --delete"].
Proof.
  destruct (X4_sync_only_after_validation example_world (example_command true)
              "aws s3 sync dist s3://www.example.com --delete"
              (or_intror (or_introl eq_refl))) as (d & b & _ & _ & H).
  exact H.
Defined.

Ltac not_in_cdn Hin He :=
  cbn in Hin;
  repeat (destruct Hin as [Hin|Hin]; [subst; discriminate He|]);
  destruct Hin.

(** X5. CloudFlare is contacted (the client built, a zone looked up,
    a cache purged) only in a run with the purge flag, and only after
    the sync command of that run has returned 0. *)
Theorem X5_cdn_only_after_successful_sync
    (w : World) (c : CommandLine) (e : Event) :
  In e (fst (main w c)) ->
  is_cdn e = true ->
  purge_cache c = true /\
  exists cmd before rest,
    fst (main w c) = (before ++ EvSubprocess cmd :: rest)%list /\
    sync w cmd = 0%Z /\
    none_of is_cdn before.
Proof.
  intros Hin He. pose proof (every_run w c) as R.
  remember (main w c) as r eqn:Er. clear Er.
  destruct R as [H|Hg Hu|ex Hg Hl Hex|doc Hg Hl Hd|d Hg Hl Hb
                 |d b Hc Hs|d b Hc Hs Hp|d b Hc Hs Hp Hb|d b Hc Hs Hp];
    cbn [fst] in *.
  1-8: not_in_cdn Hin He.
  split; [exact Hp|].
  destruct (purge_run_trace w c b) as (rest & E & _).
  exists (command w c (PyStr b)), [EvOpen (str (env_config_file c))],
    (EvCloudFlare :: trace (cdn_step w b) ++ rest)%list.
  split; [exact E|]. split; [exact Hs|reflexivity].
Qed.

Lemma X5_witness :
  purge_cache (example_command true) = true.
Proof.
  exact (proj1 (X5_cdn_only_after_successful_sync example_world
                  (example_command true) EvCloudFlare
                  (or_intror (or_intror (or_introl eq_refl))) eq_refl)).
Defined.

(** X6. Once click has accepted the command line and entered
    [frontend_deploy], the exit status is 0 or 1.  It is 0 only
    when the command returns, and then the last thing the run did is
    the log line "Frontend application <app> successfully deployed to
    <bucket>.", the sync command ran and returned 0, and, with the
    purge flag, the cache purge was called. *)
Theorem X6_exit_status_zero_means_deployed (w : World) (c : CommandLine) :
  (exit_status (snd (main w c)) = 0%Z \/ exit_status (snd (main w c)) = 1%Z) /\
  (exit_status (snd (main w c)) = 0%Z ->
   snd (main w c) = Finished PyNone /\
   exists cmd bucket_name before,
     fst (main w c)
     = (before ++
        [EvLog SCRIPT_SHORTNAME
           ("Frontend application " ++ str (app_name c)
            ++ " successfully deployed to " ++ format w bucket_name
            ++ ".")])%list /\
     In (EvSubprocess cmd) before /\
     sync w cmd = 0%Z /\
     (purge_cache c = true ->
      exists zone_id data, In (EvPurgeCache zone_id data) before)).
Proof.
  pose proof (every_run w c) as R.
  remember (main w c) as r eqn:Er. clear Er.
  destruct R as [H|Hg Hu|ex Hg Hl Hex|doc Hg Hl Hd|d Hg Hl Hb
                 |d b Hc Hs|d b Hc Hs Hp|d b Hc Hs Hp Hb|d b Hc Hs Hp];
    cbn [fst snd exit_status] in *.
  1-6, 8: (split; [now right|discriminate]).
  - split; [now left|]. intros _. split; [reflexivity|].
    exists (command w c b), b,
      [EvOpen (str (env_config_file c)); EvSubprocess (command w c b)].
    split; [reflexivity|]. split; [now right; left|]. split; [exact Hs|].
    intros Hp'. congruence.
  - destruct (purge_run_trace w c b) as (rest & E & _ & Hok & Hbad).
    destruct (result (cdn_step w b)) as [[]|code|ex] eqn:Hr.
    + destruct (Hok eq_refl) as [-> Hfin].
      destruct (cdn_step_ok w b Hr) as (z & zs & zone_id & _ & _ & Ht).
      split; [left; now rewrite Hfin|]. intros _. split; [exact Hfin|].
      exists (command w c (PyStr b)), (PyStr b),
        ([EvOpen (str (env_config_file c));
          EvSubprocess (command w c (PyStr b)); EvCloudFlare]
         ++ trace (cdn_step w b))%list.
      split; [rewrite E; now rewrite !app_assoc|].
      split; [now right; left|]. split; [exact Hs|].
      intros _. exists zone_id, (hosts b). rewrite Ht. cbn. tauto.
    + destruct Hbad as [_ Hone]; [discriminate|].
      split; [now right|]. rewrite Hone. discriminate.
    + destruct Hbad as [_ Hone]; [discriminate|].
      split; [now right|]. rewrite Hone. discriminate.
Qed.

Lemma X6_witness :
  snd (main example_world (example_command true)) = Finished PyNone.
Proof.
  exact (proj1 (proj2 (X6_exit_status_zero_means_deployed example_world
                         (example_command true)) eq_refl)).
Defined.

(** X7. A bucket name that is not a string (a number, [true], a list
    or a mapping in the config file) is synced under its printed
    form; with the purge flag the run then ends in the AttributeError
    of [bucket_name.split], after the sync, before any CloudFlare call
    and without a log line. *)
Theorem X7_bucket_name_not_a_string
    (w : World) (c : CommandLine) (d : list (string * PyVal))
    (bucket_name : PyVal) :
  configured w c d bucket_name ->
  (forall s, bucket_name <> PyStr s) ->
  sync w (sync_command (str (app_dist c)) (repr w bucket_name)) = 0%Z ->
  purge_cache c = true ->
  main w c =
    ([EvOpen (str (env_config_file c));
      EvSubprocess (sync_command (str (app_dist c)) (repr w bucket_name))],
     Uncaught AttributeError).
Proof.
  intros Hc Hb Hs Hp.
  assert (Hf : format w bucket_name = repr w bucket_name).
  { destruct bucket_name as [| | |s| |]; try reflexivity. now destruct (Hb s). }
  rewrite <- Hf in *.
  exact (main_of_deploy _ _ _ _
           (deploy_bucket_not_text w c d bucket_name Hc Hs Hp Hb)).
Qed.

Lemma X7_witness :
  main (with_config example_world
          (Returns (PyDict [("S3_BUCKET_NAME", PyInt 42)])))
       (example_command true)
  = ([EvOpen "env.yml"; EvSubprocess "aws s3 sync dist s3://? --delete"],
     Uncaught AttributeError).
Proof.
  assert (Hc : configured
                 (with_config example_world
                    (Returns (PyDict [("S3_BUCKET_NAME", PyInt 42)])))
                 (example_command true)
                 [("S3_BUCKET_NAME", PyInt 42)] (PyInt 42)) by (repeat split).
  assert (Hb : forall s, PyInt 42 <> PyStr s) by discriminate.
  exact (X7_bucket_name_not_a_string _ (example_command true) _ _
           Hc Hb eq_refl eq_refl).
Defined.

(** X8. An answer of the zone lookup on which [[0]['id']] raises a
    TypeError (null, a number, a list of things that are not
    mappings) is not covered by the [except] clause: the run ends in
    that exception right after the lookup, with the sync done, no
    purge and no log line. *)
Theorem X8_lookup_answer_of_another_type
    (w : World) (c : CommandLine) (d : list (string * PyVal))
    (bucket : string) (zones : PyVal) :
  configured w c d (PyStr bucket) ->
  sync w (sync_command (str (app_dist c)) bucket) = 0%Z ->
  purge_cache c = true ->
  zones_get w (zone_of bucket) = Returns zones ->
  (item0 zones = Throws TypeError \/
   exists zone,
     item0 zones = Returns zone /\ item zone "id" = Throws TypeError) ->
  main w c =
    ([EvOpen (str (env_config_file c));
      EvSubprocess (sync_command (str (app_dist c)) bucket);
      EvCloudFlare;
      EvZonesGet (zone_of bucket)],
     Uncaught TypeError).
Proof.
  intros (Hg & Hl & Hb & Ht) Hs Hp Hz Hshape.
  assert (Hne : bucket <> EmptyString) by (intros ->; discriminate Ht).
  unfold main. cbv zeta.
  rewrite (run_to_cdn_step w c d bucket Hg Hp Hl Hb Hne Hs).
  unfold cdn_step, purge. rewrite Hz.
  destruct Hshape as [H0|(zone & H0 & H1)]; cbn; rewrite H0; cbn;
    rewrite ?H1; reflexivity.
Qed.

Lemma X8_witness :
  main (with_zones example_world (Returns PyNone)) (example_command true)
  = ([EvOpen "env.yml";
      EvSubprocess "aws s3 sync dist s3://www.example.com --delete";
      EvCloudFlare; EvZonesGet "example.com"],
     Uncaught TypeError).
Proof.
  assert (Hc : configured (with_zones example_world (Returns PyNone))
                 (example_command true)
                 [("S3_BUCKET_NAME", PyStr "www.example.com")]
                 (PyStr "www.example.com")) by (repeat split).
  exact (X8_lookup_answer_of_another_type
           (with_zones example_world (Returns PyNone)) (example_command true)
           _ "www.example.com" PyNone Hc eq_refl eq_refl eq_refl
           (or_introl eq_refl)).
Defined.

(* ------------------------------------------------------------------ *)
(** ** The zone of a bucket                                            *)
(* ------------------------------------------------------------------ *)

(** X9. The zone that is looked up is an ending of the bucket name
    with at most two labels; a bucket name of one or two labels is
    its own zone; taking the zone of a zone changes nothing. *)
Theorem X9_zone_is_an_ending_of_the_bucket
    (w : World) (c : CommandLine) (d : list (string * PyVal))
    (bucket : string) :
  configured w c d (PyStr bucket) ->
  sync w (sync_command (str (app_dist c)) bucket) = 0%Z ->
  purge_cache c = true ->
  exists zone,
    filter is_zone_lookup (fst (main w c)) = [EvZonesGet zone] /\
    (exists front, bucket = front ++ zone) /\
    (length (split "." zone) <= 2)%nat /\
    ((length (split "." bucket) <= 2)%nat -> zone = bucket) /\
    join "." (last_n 2 (split "." zone)) = zone.
Proof.
  intros (Hg & Hl & Hb & Ht) Hs Hp.
  assert (Hne : bucket <> EmptyString) by (intros ->; discriminate Ht).
  exists (zone_of bucket). split; [|split; [|split; [|split]]].
  - unfold main. cbv zeta.
    rewrite (run_to_cdn_step w c d bucket Hg Hp Hl Hb Hne Hs).
    destruct (cdn_step_lookup w bucket) as (rest & E & Hrest).
    unfold none_of in Hrest.
    destruct (cdn_step w bucket) as [t [[]|code|e]]; cbn in E; subst t; cbn;
      rewrite ?filter_app, ?Hrest; reflexivity.
  - destruct (join_skipn "." (length (split "." bucket) - 2)
                (split "." bucket)) as [front E].
    exists front. rewrite join_split in E. exact E.
  - rewrite split_zone. apply last_n_length.
  - intros Hshort. unfold zone_of. rewrite (last_n_short 2 _ Hshort).
    apply join_split.
  - rewrite split_zone.
    rewrite (last_n_short 2 (last_n 2 (split "." bucket)));
      [reflexivity|apply last_n_length].
Qed.

Lemma X9_witness :
  exists zone,
    filter is_zone_lookup
      (fst (main (with_config example_world
                    (Returns (PyDict [("S3_BUCKET_NAME",
                                       PyStr "example.com")])))
              (example_command true)))
    = [EvZonesGet zone] /\
    zone = "example.com".
Proof.
  assert (Hc : configured
                 (with_config example_world
                    (Returns (PyDict [("S3_BUCKET_NAME",
                                       PyStr "example.com")])))
                 (example_command true)
                 [("S3_BUCKET_NAME", PyStr "example.com")]
                 (PyStr "example.com")) by (repeat split).
  destruct (X9_zone_is_an_ending_of_the_bucket _ (example_command true) _ _
              Hc eq_refl eq_refl) as (zone & H & _ & _ & Hshort & _).
  exists zone. split; [exact H|]. apply Hshort. cbn. lia.
Defined.

(** X14. A run that ends by [sys.exit] ends with code 1 and has
    written exactly one log line, as the last thing it did; a run
    that ends in an exception nobody catches has written no log line
    at all. *)
Theorem X14_one_log_line_per_exit (w : World) (c : CommandLine) :
  (forall code,
     snd (main w c) = Exited code ->
     code = 1%Z /\
     exists before msg,
       fst (main w c) = (before ++ [EvLog SCRIPT_SHORTNAME msg])%list /\
       none_of is_log before) /\
  (forall e,
     snd (main w c) = Uncaught e -> none_of is_log (fst (main w c))).
Proof.
  pose proof (every_run w c) as R.
  remember (main w c) as r eqn:Er. clear Er.
  destruct R as [H|Hg Hu|ex Hg Hl Hex|doc Hg Hl Hd|d Hg Hl Hb
                 |d b Hc Hs|d b Hc Hs Hp|d b Hc Hs Hp Hb|d b Hc Hs Hp];
    cbn [fst snd] in *.
  1-8: (split; [intros code E|intros e E]; try discriminate E;
        try reflexivity).
  1-4: (inversion E; subst code; split; [reflexivity|]).
  - exists [], (missing_message c). now split.
  - eexists [_], _. now split.
  - eexists [_], _. now split.
  - eexists [_; _], _. now split.
  - pose proof (cdn_step_logs w b) as L.
    destruct (cdn_step_result w b) as [_ Hcode].
    unfold purge_run. cbv zeta.
    destruct (cdn_step w b) as [t [[]|code|e]]; cbn in *.
    + split; [intros code E|intros e E]; discriminate E.
    + split; [|intros e E; discriminate E].
      intros code' E. inversion E; subst code'.
      split; [now apply Hcode|].
      destruct L as (calls & msg & -> & Hcalls).
      exists ([EvOpen (str (env_config_file c));
               EvSubprocess (command w c (PyStr b)); EvCloudFlare]
              ++ calls)%list, msg.
      split; [reflexivity|].
      unfold none_of in *. cbn. exact Hcalls.
    + split; [intros code E; discriminate E|].
      intros e' _. unfold none_of in *.
      rewrite ?app_nil_r. cbn. exact L.
Qed.

Lemma X14_witness :
  exists before msg,
    fst (main (with_sync example_world 2) (example_command true))
    = (before ++ [EvLog SCRIPT_SHORTNAME msg])%list /\
    none_of is_log before.
Proof.
  exact (proj2 (proj1 (X14_one_log_line_per_exit (with_sync example_world 2)
                         (example_command true)) 1%Z eq_refl)).
Defined.

End Publisher.

(* ================================================================== *)
(** * The CI job trigger                                              *)
(* ================================================================== *)

Section Trigger.
Import JenkinsTriggerBuild Examples TriggerExamples.

(** What [trigger] does with the answer of [jenkins.trigger_build]. *)
Lemma trigger_returns (tb : TriggerBuild) (a : TriggerArgs) (r : BuildResult) :
  tb (request_of a) = Some (Returns r) ->
  trigger tb (arg_url a) (arg_user_name a) (arg_user_token a) (arg_job a)
    (arg_token a) (arg_cause a) (arg_param a) (arg_timeout a)
    (arg_expected_status a)
  = Some ([EvTriggerBuild (request_of a)],
          Ok (PyBool (eq_status r (arg_expected_status a)))).
Proof.
  unfold trigger. fold (request_of a). intros ->. reflexivity.
Qed.

Lemma main_returns (tb : TriggerBuild) (c : CommandLine) (a : TriggerArgs)
    (r : BuildResult) :
  options c = inr a ->
  tb (request_of a) = Some (Returns r) ->
  main tb c
  = Some ([EvTriggerBuild (request_of a)],
          Finished (PyBool (eq_status r (arg_expected_status a)))).
Proof.
  intros Ho Hr. unfold main. rewrite Ho, (trigger_returns tb a r Hr).
  reflexivity.
Qed.

(** What an accepted command line tells about the arguments. *)
Lemma options_accepted (c : CommandLine) (a : TriggerArgs) :
  options c = inr a ->
  arg_url a = defaulted (url c) default_url /\
  user_name c = Some (arg_user_name a) /\
  value (user_token c) (from_environ (environ c) "JENKINS_USER_TOKEN") None
    = Some (arg_user_token a) /\
  job c = Some (arg_job a) /\
  value (token c) (from_environ (environ c) "JENKINS_JOB_TOKEN") None
    = Some (arg_token a) /\
  arg_timeout a = defaulted (timeout c) default_timeout /\
  arg_expected_status a = defaulted (expected_status c) STATUS_SUCCESS /\
  existsb (String.eqb (arg_expected_status a)) expected_status_choices = true.
Proof.
  unfold options, and_then, required, choice.
  destruct (url c), (user_name c); cbn [value defaulted]; try discriminate.
  all: destruct (value (user_token c)
                   (from_environ (environ c) "JENKINS_USER_TOKEN") None);
    try discriminate.
  all: destruct (job c); cbn [value]; try discriminate.
  all: destruct (value (token c)
                   (from_environ (environ c) "JENKINS_JOB_TOKEN") None);
    try discriminate.
  all: destruct (existsb _ expected_status_choices) eqn:Hc; try discriminate.
  all: intros H; inversion H; subst a; cbn; repeat split; assumption.
Qed.

(** The expected status click passes on is the one given, SUCCESS
    when none is given. *)
Lemma expected_status_default (c : CommandLine) (a : TriggerArgs) :
  options c = inr a ->
  arg_expected_status a = defaulted (expected_status c) STATUS_SUCCESS.
Proof. intros H. apply (options_accepted c a H). Qed.


(** Without [--timeout] the budget is 1800 seconds. *)
Lemma timeout_default (c : CommandLine) (a : TriggerArgs) :
  timeout c = None -> options c = inr a -> arg_timeout a = inject_Z 1800.
Proof.
  intros Ht H. destruct (options_accepted c a H) as (_ & _ & _ & _ & _ & E & _).
  now rewrite E, Ht.
Qed.

(** C1. When the call of [jenkins.trigger_build] comes back with the
    terminal status [s] of the build, [trigger] returns the boolean
    [s == expected_status], for the expected status given on the
    command line, SUCCESS when none is given.  The process does not
    pass it on: the value is dropped where [trigger()] is called, and
    the exit status is 0 whether the comparison is true or false. *)
Theorem C1_comparison_is_returned_exit_status_is_0
    (tb : TriggerBuild) (c : CommandLine) (a : TriggerArgs) (s : string) :
  options c = inr a ->
  tb (request_of a) = Some (Returns (Status s)) ->
  (forall e,
     expected_status c = Some e ->
     main tb c
     = Some ([EvTriggerBuild (request_of a)], Finished (PyBool (s =? e)))) /\
  (expected_status c = None ->
   main tb c
   = Some ([EvTriggerBuild (request_of a)],
           Finished (PyBool (s =? STATUS_SUCCESS)))) /\
  (forall t o, main tb c = Some (t, o) -> exit_status o = 0%Z).
Proof.
  intros Ho Hr.
  pose proof (expected_status_default c a Ho) as He.
  pose proof (main_returns tb c a (Status s) Ho Hr) as Hm. cbn in Hm.
  split; [|split].
  - intros e Hgiven. rewrite Hm, He, Hgiven. reflexivity.
  - intros Hnone. rewrite Hm, He, Hnone. reflexivity.
  - intros t o H. rewrite Hm in H. inversion H. reflexivity.
Qed.

Lemma C1_witness :
  main (ends_with STATUS_FAIL) example_trigger
  = Some ([EvTriggerBuild (request_of example_arguments)],
          Finished (PyBool false)) /\
  exit_status (Finished (PyBool false)) = 0%Z.
Proof.
  destruct (C1_comparison_is_returned_exit_status_is_0
              (ends_with STATUS_FAIL) example_trigger example_arguments
              STATUS_FAIL eq_refl eq_refl) as (_ & Hdefault & Hexit).
  split; [exact (Hdefault eq_refl)|].
  exact (Hexit _ _ (Hdefault eq_refl)).
Defined.

(** As long as the build is still running the polls go on; the first
    poll after the budget is used up ends them with the timeout. *)
Lemma poll_timeout (srv : Server) (id : nat) (budget : Q) (n : nat) :
  ~ Qle (clock srv n) budget ->
  forall fuel k,
    (k <= n)%nat ->
    (forall j, (k <= j < n)%nat -> still_running srv id budget j) ->
    (n - k < fuel)%nat ->
    poll srv id budget fuel k = Some Timeout.
Proof.
  intros Hn. induction fuel as [|fuel IH]; intros k Hk Hrun Hfuel; [lia|].
  cbn [poll]. destruct (Qle_bool (clock srv k) budget) eqn:E; cbn [negb].
  - assert (Hlt : (k < n)%nat).
    { destruct (Nat.eq_dec k n) as [->|]; [|lia].
      exfalso. apply Hn. now apply Qle_bool_iff. }
    destruct (Hrun k (conj (le_n k) Hlt)) as [_ Hs].
    assert (Hnext : poll srv id budget fuel (S k) = Some Timeout).
    { apply IH; [lia| |lia]. intros j Hj. apply Hrun. lia. }
    destruct (status_of id (builds srv k)) as [s|]; [|exact Hnext].
    now rewrite (Hs s eq_refl).
  - reflexivity.
Qed.

(** When the build gets the terminal status [s] at the [n]-th poll,
    within the budget, the polls end with that status. *)
Lemma poll_reaches (srv : Server) (id : nat) (budget : Q) (n : nat)
    (s : string) :
  Qle (clock srv n) budget ->
  status_of id (builds srv n) = Some s ->
  is_terminal s = true ->
  forall fuel k,
    (k <= n)%nat ->
    (forall j, (k <= j < n)%nat -> still_running srv id budget j) ->
    (n - k < fuel)%nat ->
    poll srv id budget fuel k = Some (Status s).
Proof.
  intros Hn Hs Ht. induction fuel as [|fuel IH]; intros k Hk Hrun Hfuel; [lia|].
  cbn [poll]. destruct (Nat.eq_dec k n) as [->|Hkn].
  - apply Qle_bool_iff in Hn. rewrite Hn, Hs, Ht. reflexivity.
  - destruct (Hrun k ltac:(lia)) as [Hq Hst].
    apply Qle_bool_iff in Hq. rewrite Hq. cbn [negb].
    assert (Hnext : poll srv id budget fuel (S k) = Some (Status s)).
    { apply IH; [lia| |lia]. intros j Hj. apply Hrun. lia. }
    destruct (status_of id (builds srv k)) as [s'|]; [|exact Hnext].
    now rewrite (Hst s' eq_refl).
Qed.

(** With the polling of the model under [trigger]: a build that gets
    the terminal status [s] within the budget makes the command
    return [s == expected_status]. *)
Corollary trigger_reports_reached_status
    (srv : Server) (c : CommandLine) (a : TriggerArgs) (id n fuel : nat)
    (s : string) :
  options c = inr a ->
  invoke srv (request_of a) = Returns id ->
  (forall k, (k < n)%nat -> still_running srv id (arg_timeout a) k) ->
  Qle (clock srv n) (arg_timeout a) ->
  status_of id (builds srv n) = Some s ->
  is_terminal s = true ->
  (n < fuel)%nat ->
  main (trigger_build srv fuel) c
    = Some ([EvTriggerBuild (request_of a)],
            Finished (PyBool (s =? arg_expected_status a))).
Proof.
  intros Ho Hi Hrun Hn Hs Ht Hfuel.
  apply (main_returns (trigger_build srv fuel) c a (Status s) Ho).
  unfold trigger_build. rewrite Hi.
  change (req_timeout (request_of a)) with (arg_timeout a).
  rewrite (poll_reaches srv id (arg_timeout a) n s Hn Hs Ht fuel 0%nat);
    [reflexivity|lia| |lia].
  intros j Hj. apply Hrun. lia.
Qed.

(** C2. When the build has no terminal status at any poll made within
    the budget (1800 seconds unless [--timeout] is given) and a poll
    finds the budget used up, [trigger_build] gives the timeout
    result; it is none of the status results, and the command returns
    false whatever the expected status. *)
Theorem C2_timeout_is_not_a_status
    (srv : Server) (c : CommandLine) (a : TriggerArgs) (id n fuel : nat) :
  options c = inr a ->
  invoke srv (request_of a) = Returns id ->
  (forall k, (k < n)%nat -> still_running srv id (arg_timeout a) k) ->
  ~ Qle (clock srv n) (arg_timeout a) ->
  (n < fuel)%nat ->
  trigger_build srv fuel (request_of a) = Some (Returns Timeout) /\
  (forall s, Timeout <> Status s) /\
  (forall expected, eq_status Timeout expected = false) /\
  main (trigger_build srv fuel) c
    = Some ([EvTriggerBuild (request_of a)], Finished (PyBool false)) /\
  (timeout c = None -> arg_timeout a = inject_Z 1800).
Proof.
  intros Ho Hi Hrun Hn Hfuel.
  assert (Ht : trigger_build srv fuel (request_of a) = Some (Returns Timeout)).
  { unfold trigger_build. rewrite Hi.
    change (req_timeout (request_of a)) with (arg_timeout a).
    rewrite (poll_timeout srv id (arg_timeout a) n Hn fuel 0%nat);
      [reflexivity|lia| |lia].
    intros j Hj. apply Hrun. lia. }
  split; [exact Ht|]. split; [discriminate|]. split; [reflexivity|].
  split.
  - exact (main_returns (trigger_build srv fuel) c a Timeout Ho Ht).
  - intros Hnone. exact (timeout_default c a Hnone Ho).
Qed.

Lemma C2_witness :
  main (trigger_build stuck_server 62) example_trigger
  = Some ([EvTriggerBuild (request_of example_arguments)],
          Finished (PyBool false)).
Proof.
  assert (Hrun : forall k, (k < 61)%nat ->
            still_running stuck_server 7 (arg_timeout example_arguments) k).
  { intros k Hk. split; [|discriminate].
    unfold Qle. cbn -[Z.mul Z.of_nat]. lia. }
  assert (Hn : ~ Qle (clock stuck_server 61) (arg_timeout example_arguments)).
  { unfold Qle. cbn. lia. }
  assert (Hfuel : (61 < 62)%nat) by lia.
  exact (proj1 (proj2 (proj2 (proj2
           (C2_timeout_is_not_a_status stuck_server example_trigger
              example_arguments 7 61 62 eq_refl eq_refl Hrun Hn Hfuel))))).
Defined.

(* ------------------------------------------------------------------ *)
(** ** Further properties of the trigger                               *)
(* ------------------------------------------------------------------ *)

Lemma choice_iff (v : string) (choices : list string) :
  existsb (String.eqb v) choices = true <-> In v choices.
Proof.
  rewrite existsb_exists. split.
  - intros (x & Hx & E). apply String.eqb_eq in E. now subst.
  - intros H. exists v. split; [exact H|apply String.eqb_refl].
Qed.



(** X11. An expected status that is not one of the five choices
    (FAIL, ERROR, ABORTED, REGRESSION, SUCCESS, in capitals) makes
    click reject the command line: the CI server is not called. *)
Theorem X11_unknown_expected_status_rejected
    (tb : TriggerBuild) (c : CommandLine) (v : string) :
  expected_status c = Some v ->
  ~ In v expected_status_choices ->
  exists name, main tb c = Some ([], UsageError name).
Proof.
  intros Hv Hn. unfold main.
  destruct (options c) as [name|a] eqn:Ho; [eauto|].
  destruct (options_accepted c a Ho) as (_ & _ & _ & _ & _ & _ & He & Hc).
  rewrite Hv in He. cbn in He. rewrite He in Hc.
  apply choice_iff in Hc. contradiction.
Qed.

Lemma X11_witness :
  exists name,
    main succeeds (example_trigger_expecting "success")
    = Some ([], UsageError name).
Proof.
  assert (Hn : ~ In "success" expected_status_choices).
  { cbn. intros [H|[H|[H|[H|[H|[]]]]]]; discriminate H. }
  exact (X11_unknown_expected_status_rejected succeeds
           (example_trigger_expecting "success") "success" eq_refl Hn).
Defined.

(** X12. A build that ends with a status outside the five choices of
    [--expected-status] makes [trigger] return false, whatever the
    command line expects. *)
Theorem X12_other_status_never_matches
    (tb : TriggerBuild) (c : CommandLine) (a : TriggerArgs) (s : string) :
  options c = inr a ->
  tb (request_of a) = Some (Returns (Status s)) ->
  ~ In s expected_status_choices ->
  main tb c
  = Some ([EvTriggerBuild (request_of a)], Finished (PyBool false)).
Proof.
  intros Ho Hr Hn.
  rewrite (main_returns tb c a (Status s) Ho Hr). cbn [eq_status].
  destruct (options_accepted c a Ho) as (_ & _ & _ & _ & _ & _ & _ & Hc).
  apply choice_iff in Hc.
  destruct (String.eqb_spec s (arg_expected_status a)) as [->|_];
    [contradiction|reflexivity].
Qed.

Lemma X12_witness :
  main (ends_with "UNSTABLE") example_trigger
  = Some ([EvTriggerBuild (request_of example_arguments)],
          Finished (PyBool false)).
Proof.
  assert (Hn : ~ In "UNSTABLE" expected_status_choices).
  { cbn. intros [H|[H|[H|[H|[H|[]]]]]]; discriminate H. }
  exact (X12_other_status_never_matches (ends_with "UNSTABLE") example_trigger
           example_arguments "UNSTABLE" eq_refl eq_refl Hn).
Defined.

(** X13. [jenkins.trigger_build] is called at most once, and with
    what the command line says: user name and job as given; each of
    the two tokens from its flag, from its environment variable only
    when the flag is absent; cause and parameters unchanged (the
    parameters in their order); the URL and the timeout as given,
    else the default URL and 1800 seconds. *)
Theorem X13_request_follows_the_command_line
    (tb : TriggerBuild) (c : CommandLine) (t : list Event) (o : Outcome)
    (req : BuildRequest) :
  main tb c = Some (t, o) ->
  In (EvTriggerBuild req) t ->
  t = [EvTriggerBuild req] /\
  req_url req = defaulted (url c) default_url /\
  user_name c = Some (req_user_name req) /\
  job c = Some (req_job req) /\
  (user_token c = Some (req_user_token req) \/
   user_token c = None /\
   environ c "JENKINS_USER_TOKEN" = Some (req_user_token req)) /\
  (token c = Some (req_token req) \/
   token c = None /\
   environ c "JENKINS_JOB_TOKEN" = Some (req_token req)) /\
  req_cause req = cause c /\
  req_param req = param c /\
  req_timeout req = defaulted (timeout c) (inject_Z 1800).
Proof.
  intros Hm Hin.
  assert (Hreq : exists a,
            options c = inr a /\ t = [EvTriggerBuild (request_of a)]).
  { revert Hm. unfold main. destruct (options c) as [name|a] eqn:Ho.
    - intros H. inversion H; subst. destruct Hin.
    - unfold trigger. fold (request_of a).
      destruct (tb (request_of a)) as [[r|e]|]; [| |discriminate];
        intros H; inversion H; subst; eauto. }
  destruct Hreq as (a & Ho & ->).
  destruct Hin as [Hin|[]]. inversion Hin; subst req. clear Hin.
  destruct (options_accepted c a Ho)
    as (Hurl & Hname & Hut & Hjob & Htok & Htime & _ & _).
  assert (Hcause : arg_cause a = cause c /\ arg_param a = param c).
  { revert Ho. unfold options, and_then, required, choice.
    repeat match goal with
           | |- context [match ?x with _ => _ end] =>
               destruct x; try discriminate
           end.
    intros H. inversion H. split; reflexivity. }
  split; [reflexivity|]. cbn [request_of req_url req_user_name req_job
    req_user_token req_token req_cause req_param req_timeout].
  repeat split; try assumption; try apply Hcause.
  - unfold value, from_environ in Hut.
    destruct (user_token c); [left; exact Hut|].
    right. split; [reflexivity|].
    destruct (environ c "JENKINS_USER_TOKEN") as [v|]; [|discriminate].
    destruct (v =? EmptyString); [discriminate|exact Hut].
  - unfold value, from_environ in Htok.
    destruct (token c); [left; exact Htok|].
    right. split; [reflexivity|].
    destruct (environ c "JENKINS_JOB_TOKEN") as [v|]; [|discriminate].
    destruct (v =? EmptyString); [discriminate|exact Htok].
Qed.

Lemma X13_witness :
  req_url (request_of example_arguments) = default_url /\
  environ example_trigger "JENKINS_USER_TOKEN"
  = Some (req_user_token (request_of example_arguments)).
Proof.
  destruct (X13_request_follows_the_command_line succeeds example_trigger
              _ _ (request_of example_arguments) eq_refl
              (or_introl eq_refl)) as (_ & Hurl & _ & _ & Hut & _).
  split; [exact Hurl|].
  destruct Hut as [H|[_ H]]; [discriminate H|exact H].
Defined.

End Trigger.

(* ================================================================== *)
(** * Missing options, in both scripts                                *)
(* ================================================================== *)

Section MissingOptions.
Import Examples.





End MissingOptions.
